(** * SAFE-LOOP orchestrator: session state machine and impact scoring

    A shallow embedding of [apps/api/safeloop_api/main.py] and the proofs of
    the properties its specification states.

    Modelling choices, all taken from the source:
    - Python [int] is unbounded, so scores are [Z]; [//] by a positive
      divisor is floor division, which is [Z.div].
    - [SESSIONS] and [SCENARIO_IMPACTS] are dictionaries: [gmap].
    - A session dictionary is reachable only through [SESSIONS], so it is
      stored by value. The impact dictionary is mutated in place, returned
      and copied with [dict(impact)]: impact dictionaries live in an explicit
      object heap and sessions and action records hold references to them.
    - [now_iso()] reads the wall clock: every call site receives its
      timestamp as an argument. [uuid4()] is likewise an argument of
      [create_session], and [hashlib.sha256] is a parameter of that route.
    - [HTTPException] is an error result carrying the world at the raise.
    - A Python [str] is the byte sequence of its UTF-8 encoding. [str.lower]
      is Python's built-in, driven by the Unicode tables: it is a parameter
      [lower] of the development, about which nothing is assumed beyond what
      a statement names as a hypothesis; [lower_ascii], which agrees with it
      on ASCII text, instantiates it in the examples. Request validation (pydantic) happens before a route
      runs. *)

From stdpp Require Import gmap strings list fin_maps.
From Stdlib Require Import ZArith Ascii.

Local Open Scope string_scope.
Local Open Scope Z_scope.

(** ** 2. Models *)

Inductive Persona := student | industry_observer | indigenous_partner | instructor.

#[local] Unset Elimination Schemes.
Inductive json :=
| JNull
| JBool (b : bool)
| JInt (n : Z)
| JStr (s : string)
| JList (l : list json)
| JDict (l : list (string * json)).
#[local] Set Elimination Schemes.

Definition timestamp := string.

Record CreateSessionIn := {
  in_user_id : string;
  in_persona : Persona;
  in_scenario_id : string
}.

Record CreateSessionOut := {
  out_session_id : string;
  out_status : string
}.

Record EthicsDeclarationIn := {
  acknowledge_no_harm : bool;
  acknowledge_no_real_data : bool;
  acknowledge_audit_logging : bool;
  acknowledge_professional_codes : bool
}.

Record ActionLogIn := {
  action_type : string;
  details : list (string * json);
  intent : string;
  expected_impact : string
}.

Record ReflectionIn := {
  what_happened : string;
  who_could_be_harmed : string;
  what_you_would_do_in_industry : string
}.

(** The dictionary built by [baseline_impact]. *)
Record Impact := {
  privacy_exposure : Z;
  trust : Z;
  regulatory_scrutiny : Z;
  business_impact : Z;
  community_harm : Z;
  updated_at : timestamp
}.

(** [impact["trust"] = v] and its siblings. *)
Definition set_trust (v : Z) (i : Impact) : Impact :=
  {| privacy_exposure := privacy_exposure i; trust := v;
     regulatory_scrutiny := regulatory_scrutiny i;
     business_impact := business_impact i;
     community_harm := community_harm i; updated_at := updated_at i |}.

Definition set_privacy_exposure (v : Z) (i : Impact) : Impact :=
  {| privacy_exposure := v; trust := trust i;
     regulatory_scrutiny := regulatory_scrutiny i;
     business_impact := business_impact i;
     community_harm := community_harm i; updated_at := updated_at i |}.

Definition set_community_harm (v : Z) (i : Impact) : Impact :=
  {| privacy_exposure := privacy_exposure i; trust := trust i;
     regulatory_scrutiny := regulatory_scrutiny i;
     business_impact := business_impact i;
     community_harm := v; updated_at := updated_at i |}.

Definition set_updated_at (t : timestamp) (i : Impact) : Impact :=
  {| privacy_exposure := privacy_exposure i; trust := trust i;
     regulatory_scrutiny := regulatory_scrutiny i;
     business_impact := business_impact i;
     community_harm := community_harm i; updated_at := t |}.

(** References to impact dictionaries. *)
Definition loc := positive.

(** One entry of [session["actions"]]. *)
Record ActionRecord := {
  ts : timestamp;
  logged_type : string;
  logged_details : list (string * json);
  impact_after : loc
}.

Record Session := {
  user_id : string;
  persona : Persona;
  scenario_id : string;
  status : string;
  ethics_declared : bool;
  impact : loc;
  actions : list ActionRecord;
  reflections : list ReflectionIn
}.

Record HTTPException := {
  status_code : Z;
  detail : string
}.

(** ** 3. In-memory store *)

Record World := {
  SESSIONS : gmap string Session;
  heap : gmap loc Impact
}.

Definition empty_world : World := {| SESSIONS := ∅; heap := ∅ |}.

Definition SCENARIO_IMPACTS : gmap string (gmap string Z) :=
  {[ "ethical" := {[ "trust" := 10; "streak" := 1;
                     "privacy_exposure" := -5; "community_harm" := -5 ]};
     "exploit" := {[ "trust" := -20; "streak" := -100;
                     "privacy_exposure" := 15; "community_harm" := 10 ]} ]}.

(** [d.get(k, dflt)] *)
Definition dict_get {V : Type} (d : gmap string V) (k : string) (dflt : V) : V :=
  default dflt (d !! k).

(** ** Routes as computations over the world *)

Inductive Res (A : Type) :=
| Ok (a : A) (w : World)
| Raise (e : HTTPException) (w : World)
| Wrong.
Arguments Ok {A} a w.
Arguments Raise {A} e w.
Arguments Wrong {A}.

Definition M (A : Type) : Type := World → Res A.

#[global] Instance M_ret : MRet M := λ A a w, Ok a w.

#[global] Instance M_bind : MBind M := λ A B f m w,
  match m w with
  | Ok a w' => f a w'
  | Raise e w' => Raise e w'
  | Wrong => Wrong
  end.

Definition raise {A : Type} (e : HTTPException) : M A := λ w, Raise e w.

(** [SESSIONS.get(session_id)] *)
Definition SESSIONS_get (session_id : string) : M (option Session) :=
  λ w, Ok (SESSIONS w !! session_id) w.

(** [SESSIONS[session_id] = session], also used for the in-place updates of
    a session dictionary, which only [SESSIONS] refers to. *)
Definition SESSIONS_set (session_id : string) (session : Session) : M unit :=
  λ w, Ok tt {| SESSIONS := <[session_id := session]> (SESSIONS w); heap := heap w |}.

(** [impact[k]] *)
Definition getitem {A : Type} (l : loc) (field : Impact → A) : M A :=
  λ w, match heap w !! l with
       | Some i => Ok (field i) w
       | None => Wrong
       end.

(** [impact[k] = v] *)
Definition setitem (l : loc) (assign : Impact → Impact) : M unit :=
  λ w, match heap w !! l with
       | Some i => Ok tt {| SESSIONS := SESSIONS w; heap := <[l := assign i]> (heap w) |}
       | None => Wrong
       end.

(** A dictionary display [{...}] allocates a new object. *)
Definition new_dict (i : Impact) : M loc :=
  λ w, let l := fresh (dom (heap w)) in
       Ok l {| SESSIONS := SESSIONS w; heap := <[l := i]> (heap w) |}.

(** [dict(impact)] *)
Definition dict_copy (l : loc) : M loc :=
  i ← getitem l id; new_dict i.

(** ** 4. Helpers *)

(** The dictionary display of [baseline_impact]. *)
Definition baseline_dict (now : timestamp) : Impact :=
  {| privacy_exposure := 0; trust := 100; regulatory_scrutiny := 0;
     business_impact := 0; community_harm := 0; updated_at := now |}.

Definition baseline_impact (now : timestamp) : M loc :=
  new_dict (baseline_dict now).

Definition clamp (v : Z) (lo : Z) (hi : Z) : Z := Z.max lo (Z.min hi v).

(** [clamp(v)] with the default bounds [lo=0, hi=100]. *)
Definition clamp100 (v : Z) : Z := clamp v 0 100.

(** [str.lower] on ASCII text: the letters A-Z move to a-z, every other
    character stays. *)
Definition lower_ascii_char (c : ascii) : ascii :=
  let n := nat_of_ascii c in
  if ((65 <=? n) && (n <=? 90))%nat then ascii_of_nat (n + 32) else c.

Fixpoint lower_ascii (s : string) : string :=
  match s with
  | EmptyString => EmptyString
  | String c s' => String (lower_ascii_char c) (lower_ascii s')
  end.

Definition risk_level (i : Impact) : string :=
  let score := (privacy_exposure i * 2 + community_harm i * 2 + (100 - trust i)) / 5 in
  let score := clamp score 0 100 in
  if (60 <=? score)%Z then "High"
  else if (30 <=? score)%Z then "Medium"
  else "Low".

(** The response body of [/llm_summary]. *)
Record Summary := {
  headline : string;
  summary_risk_level : string;
  observations : list string;
  human_impact : string;
  recommended_next_steps : list string;
  generated_at : timestamp
}.

Definition fake_llm_summary (now : timestamp) (session : Session) : M Summary :=
  let impact := impact session in
  let actions := actions session in
  (* Get last 3 actions *)
  let last_actions :=
    match actions with
    | [] => []
    | _ => logged_type <$> drop (length actions - 3) actions
    end in
  trust ← getitem impact trust;
  level ← getitem impact risk_level;
  (* Determine "Tone" based on Trust Score *)
  let negative := (trust <? 70)%Z in
  let headline :=
    if negative then "⚠️ Critical Risk Assessment"
    else "✅ Responsible Operation Summary" in
  let '(human_impact, recommended) :=
    if negative then
      ("Recent decisions have prioritized speed or curiosity over safety. " ++
       "In a real-world setting, this would trigger a compliance audit and potentially harm vulnerable user groups.",
       [ "Review the 'Code of Ethics' immediately.";
         "Reset the simulation and attempt the 'Ethical' path to observe the difference.";
         "Document why you chose the exploit path in your reflection log." ])
    else
      ("You have consistently prioritized stakeholder safety. " ++
       "This builds long-term resilience and trust, even if it requires more initial effort.",
       [ "Continue applying the 'Do No Harm' principle.";
         "Consider how these safeguards might scale to larger systems.";
         "Prepare your final reflection report." ]) in
  mret {| headline := headline;
          summary_risk_level := level;
          observations := last_actions;
          human_impact := human_impact;
          recommended_next_steps := recommended;
          generated_at := now |}.

(** ** 5. Routes *)

(** In-place assignment to a key of the session dictionary held in
    [SESSIONS[session_id]]. *)
Definition session_update (session_id : string) (assign : Session → Session) : M unit :=
  λ w, Ok tt {| SESSIONS := alter assign session_id (SESSIONS w); heap := heap w |}.

Definition set_status (v : string) (s : Session) : Session :=
  {| user_id := user_id s; persona := persona s; scenario_id := scenario_id s;
     status := v; ethics_declared := ethics_declared s; impact := impact s;
     actions := actions s; reflections := reflections s |}.

Definition set_ethics_declared (v : bool) (s : Session) : Session :=
  {| user_id := user_id s; persona := persona s; scenario_id := scenario_id s;
     status := status s; ethics_declared := v; impact := impact s;
     actions := actions s; reflections := reflections s |}.

Definition set_impact (v : loc) (s : Session) : Session :=
  {| user_id := user_id s; persona := persona s; scenario_id := scenario_id s;
     status := status s; ethics_declared := ethics_declared s; impact := v;
     actions := actions s; reflections := reflections s |}.

Definition set_actions (v : list ActionRecord) (s : Session) : Session :=
  {| user_id := user_id s; persona := persona s; scenario_id := scenario_id s;
     status := status s; ethics_declared := ethics_declared s; impact := impact s;
     actions := v; reflections := reflections s |}.

Definition set_reflections (v : list ReflectionIn) (s : Session) : Session :=
  {| user_id := user_id s; persona := persona s; scenario_id := scenario_id s;
     status := status s; ethics_declared := ethics_declared s; impact := impact s;
     actions := actions s; reflections := v |}.

(** [session["actions"].append(r)] *)
Definition actions_append (r : ActionRecord) (s : Session) : Session :=
  set_actions ((actions s ++ [r])%list) s.

Definition not_found : HTTPException :=
  {| status_code := 404; detail := "Session not found" |}.

Section Lowercase.

(** [str.lower] *)
Variable lower : string → string.

Section Routes.

(** [hashlib.sha256(user_id.encode()).hexdigest()[:12]] *)
Variable hash_user : string → string.

Definition create_session (session_id : string) (now : timestamp)
    (payload : CreateSessionIn) : M CreateSessionOut :=
  (* Privacy: Store hashed ID *)
  let safe_user_id := hash_user (in_user_id payload) in
  impact ← baseline_impact now;
  SESSIONS_set session_id
    {| user_id := safe_user_id;
       persona := in_persona payload;
       scenario_id := in_scenario_id payload;
       status := "created";
       ethics_declared := false;
       impact := impact;
       actions := [];
       reflections := [] |};;
  mret {| out_session_id := session_id; out_status := "created" |}.

Definition declare_ethics (session_id : string)
    (payload : EthicsDeclarationIn) : M (string * bool) :=
  session ← SESSIONS_get session_id;
  match session with
  | None => raise not_found
  | Some session =>
    if negb (acknowledge_no_harm payload && acknowledge_no_real_data payload) then
      raise {| status_code := 400; detail := "Core ethics must be acknowledged" |}
    else
      session_update session_id (set_ethics_declared true);;
      session_update session_id (set_status "active");;
      mret ("active", true)
  end.

Definition log_action (session_id : string) (t_updated t_logged : timestamp)
    (payload : ActionLogIn) : M (bool * Impact) :=
  session ← SESSIONS_get session_id;
  match session with
  | None => raise not_found
  | Some session =>
    if negb (ethics_declared session) then
      raise {| status_code := 403; detail := "Ethics declaration required" |}
    else
      let impact := impact session in
      let decision_type := lower (action_type payload) in
      (* Lookup impact based on decision type (Ethical vs Exploit) *)
      let deltas := dict_get SCENARIO_IMPACTS decision_type {[ "trust" := 0 ]} in
      (* Apply Deltas *)
      v ← getitem impact trust;
      setitem impact (set_trust (clamp100 (v + dict_get deltas "trust" 0)));;
      v ← getitem impact privacy_exposure;
      setitem impact
        (set_privacy_exposure (clamp100 (v + dict_get deltas "privacy_exposure" 0)));;
      v ← getitem impact community_harm;
      setitem impact
        (set_community_harm (clamp100 (v + dict_get deltas "community_harm" 0)));;
      setitem impact (set_updated_at t_updated);;
      impact_after ← dict_copy impact;
      session_update session_id
        (actions_append {| ts := t_logged;
                           logged_type := decision_type;
                           logged_details := details payload;
                           impact_after := impact_after |});;
      (* the response body serialises the live dictionary *)
      body ← getitem impact id;
      mret (true, body)
  end.

Definition llm_summary (session_id : string) (now : timestamp) : M Summary :=
  session ← SESSIONS_get session_id;
  match session with
  | None => raise not_found
  | Some session => fake_llm_summary now session
  end.

Definition reset (session_id : string) (now : timestamp) : M (bool * string) :=
  session ← SESSIONS_get session_id;
  match session with
  | None => raise not_found
  | Some session =>
    session_update session_id (set_status "created");;
    session_update session_id (set_actions []);;
    session_update session_id (set_reflections []);;
    impact ← baseline_impact now;
    session_update session_id (set_impact impact);;
    mret (true, "reset")
  end.

(** ** Request sequences *)

Inductive Request :=
| ReqCreateSession (session_id : string) (now : timestamp) (payload : CreateSessionIn)
| ReqDeclareEthics (session_id : string) (payload : EthicsDeclarationIn)
| ReqLogAction (session_id : string) (t_updated t_logged : timestamp) (payload : ActionLogIn)
| ReqLlmSummary (session_id : string) (now : timestamp)
| ReqReset (session_id : string) (now : timestamp).

(** The world a request leaves behind, whether it answers or raises. *)
Definition world_after {A : Type} (r : Res A) (w : World) : World :=
  match r with
  | Ok _ w' => w'
  | Raise _ w' => w'
  | Wrong => w
  end.

Definition step (req : Request) (w : World) : World :=
  match req with
  | ReqCreateSession sid now p => world_after (create_session sid now p w) w
  | ReqDeclareEthics sid p => world_after (declare_ethics sid p w) w
  | ReqLogAction sid t1 t2 p => world_after (log_action sid t1 t2 p w) w
  | ReqLlmSummary sid now => world_after (llm_summary sid now w) w
  | ReqReset sid now => world_after (reset sid now w) w
  end.

Definition exec (reqs : list Request) (w : World) : World :=
  foldl (λ w req, step req w) w reqs.

End Routes.

(** The two failure kinds of the specification, by status code: 404 is
    [NotFound]; 400 (ethics gate) and 403 (action before the gate) are
    [PreconditionFailed]. *)
Inductive ErrorKind := NotFound | PreconditionFailed.

Definition error_kind (e : HTTPException) : option ErrorKind :=
  if (status_code e =? 404)%Z then Some NotFound
  else if ((status_code e =? 400) || (status_code e =? 403))%Z then Some PreconditionFailed
  else None.

(** ** Score ranges *)

Definition in_range (v : Z) : Prop := 0 ≤ v ≤ 100.

(** The data-model invariant of an impact snapshot. *)
Definition scores_in_range (i : Impact) : Prop :=
  in_range (privacy_exposure i) ∧ in_range (trust i) ∧
  in_range (regulatory_scrutiny i) ∧ in_range (business_impact i) ∧
  in_range (community_harm i).

(** ** Notions used in the statements *)

(** [SCENARIO_IMPACTS.get(decision_type, {"trust": 0})] for the lowercased
    action type. *)
Definition deltas_of (a : string) : gmap string Z :=
  dict_get SCENARIO_IMPACTS (lower a) {[ "trust" := 0 ]}.

(** The four assignments of [log_action] to the impact dictionary, composed. *)
Definition apply_deltas (deltas : gmap string Z) (t : timestamp) (i : Impact) : Impact :=
  let i1 := set_trust (clamp100 (trust i + dict_get deltas "trust" 0)) i in
  let i2 := set_privacy_exposure
              (clamp100 (privacy_exposure i1 + dict_get deltas "privacy_exposure" 0)) i1 in
  let i3 := set_community_harm
              (clamp100 (community_harm i2 + dict_get deltas "community_harm" 0)) i2 in
  set_updated_at t i3.

(** The record [log_action] appends. *)
Definition logged_record (t_logged : timestamp) (payload : ActionLogIn) (l : loc) : ActionRecord :=
  {| ts := t_logged; logged_type := lower (action_type payload);
     logged_details := details payload; impact_after := l |}.

(** [actions[-3:]] mapped to the labels, or [[]] for an empty history. *)
Definition last_labels (actions : list ActionRecord) : list string :=
  match actions with
  | [] => []
  | _ => logged_type <$> drop (length actions - 3) actions
  end.

Definition critical_headline : string := "⚠️ Critical Risk Assessment".
Definition responsible_headline : string := "✅ Responsible Operation Summary".

Definition critical_text : string :=
  "Recent decisions have prioritized speed or curiosity over safety. " ++
  "In a real-world setting, this would trigger a compliance audit and potentially harm vulnerable user groups.".

Definition responsible_text : string :=
  "You have consistently prioritized stakeholder safety. " ++
  "This builds long-term resilience and trust, even if it requires more initial effort.".

Definition critical_steps : list string :=
  [ "Review the 'Code of Ethics' immediately.";
    "Reset the simulation and attempt the 'Ethical' path to observe the difference.";
    "Document why you chose the exploit path in your reflection log." ].

Definition responsible_steps : list string :=
  [ "Continue applying the 'Do No Harm' principle.";
    "Consider how these safeguards might scale to larger systems.";
    "Prepare your final reflection report." ].

(** [l] is the impact dictionary some session currently refers to. *)
Definition live (w : World) (l : loc) : Prop :=
  ∃ sid s, SESSIONS w !! sid = Some s ∧ impact s = l.

(** A property of every dictionary on the heap, live or copied. *)
Definition heap_all (P : Impact → Prop) (w : World) : Prop :=
  map_Forall (λ _ i, P i) (heap w).

Definition allocated (w : World) (l : loc) : Prop := is_Some (heap w !! l).

Record consistent (w : World) : Prop := {
  live_allocated : ∀ l, live w l → allocated w l;
  records_allocated : ∀ sid s r,
    SESSIONS w !! sid = Some s → r ∈ actions s → allocated w (impact_after r);
  records_not_live : ∀ sid s r,
    SESSIONS w !! sid = Some s → r ∈ actions s → ¬ live w (impact_after r)
}.

(** The shapes of world change the routes produce. *)
Inductive transition (w : World) : World → Prop :=
| tr_none : transition w w
| tr_fresh_session sid s now :
    impact s = fresh (dom (heap w)) →
    actions s = [] →
    transition w {| SESSIONS := <[sid := s]> (SESSIONS w);
                    heap := <[fresh (dom (heap w)) := baseline_dict now]> (heap w) |}
| tr_declared sid s s' :
    SESSIONS w !! sid = Some s →
    impact s' = impact s →
    actions s' = actions s →
    transition w {| SESSIONS := <[sid := s']> (SESSIONS w); heap := heap w |}
| tr_logged sid s i d t r :
    SESSIONS w !! sid = Some s →
    heap w !! impact s = Some i →
    impact_after r = fresh (dom (heap w)) →
    transition w {| SESSIONS := <[sid := actions_append r s]> (SESSIONS w);
                    heap := <[fresh (dom (heap w)) := apply_deltas d t i]>
                              (<[impact s := apply_deltas d t i]> (heap w)) |}.

Definition untouched_zero (i : Impact) : Prop :=
  regulatory_scrutiny i = 0 ∧ business_impact i = 0.

(** The impact dictionary a session identifier currently leads to. *)
Definition session_impact (w : World) (sid : string) : option Impact :=
  s ← SESSIONS w !! sid; heap w !! impact s.

(** [sid] names a session that passed the gate and whose impact is [i]. *)
Definition session_at (w : World) (sid : string) (i : Impact) : Prop :=
  ∃ s, SESSIONS w !! sid = Some s ∧ ethics_declared s = true ∧
       heap w !! impact s = Some i.

(** Requests other than [reset] and [create_session], which install an empty
    history, keep a session's action list or extend it at the end. *)
Definition keeps_history (req : Request) : bool :=
  match req with
  | ReqCreateSession _ _ _ | ReqReset _ _ => false
  | _ => true
  end.

(** ** Sample requests and worlds *)

(** A request sequence used to exercise the statements below. *)
Definition demo_requests : list Request :=
  [ ReqCreateSession "s-1" "t0"
      {| in_user_id := "ada@example.org"; in_persona := student; in_scenario_id := "phish" |};
    ReqDeclareEthics "s-1"
      {| acknowledge_no_harm := true; acknowledge_no_real_data := true;
         acknowledge_audit_logging := false; acknowledge_professional_codes := false |};
    ReqLogAction "s-1" "t1" "t2"
      {| action_type := "EXPLOIT"; details := []; intent := "Simulation Decision";
         expected_impact := "Unknown" |};
    ReqLogAction "s-1" "t3" "t4"
      {| action_type := "Ethical"; details := [("k", JInt 1)]; intent := "Simulation Decision";
         expected_impact := "Unknown" |} ].

Definition demo_hash (user_id : string) : string := "0f3a9c1d22b7".

Definition demo_world : World := exec demo_hash demo_requests empty_world.

(** A world holding one freshly created session. *)
Definition created_world : World := exec demo_hash (take 1 demo_requests) empty_world.

Definition refusing_flags : EthicsDeclarationIn :=
  {| acknowledge_no_harm := false; acknowledge_no_real_data := true;
     acknowledge_audit_logging := true; acknowledge_professional_codes := true |}.

Definition core_flags : EthicsDeclarationIn :=
  {| acknowledge_no_harm := true; acknowledge_no_real_data := true;
     acknowledge_audit_logging := false; acknowledge_professional_codes := false |}.

Definition exploit_payload : ActionLogIn :=
  {| action_type := "exploit"; details := []; intent := "Simulation Decision";
     expected_impact := "Unknown" |}.

(** A world holding one session whose ethics are declared. *)
Definition active_world : World := exec demo_hash (take 2 demo_requests) empty_world.

Definition shouted_exploit : ActionLogIn :=
  {| action_type := "EXPLOIT"; details := []; intent := "Simulation Decision";
     expected_impact := "Unknown" |}.

(** ** Notions used for the further properties *)

(** The session identifier a request addresses. *)
Definition target (req : Request) : string :=
  match req with
  | ReqCreateSession sid _ _ => sid
  | ReqDeclareEthics sid _ => sid
  | ReqLogAction sid _ _ _ => sid
  | ReqLlmSummary sid _ => sid
  | ReqReset sid _ => sid
  end.

(** No two sessions refer to the same impact dictionary. *)
Definition separate (w : World) : Prop :=
  ∀ sid1 sid2 s1 s2,
    SESSIONS w !! sid1 = Some s1 → SESSIONS w !! sid2 = Some s2 →
    impact s1 = impact s2 → sid1 = sid2.

(** How a route call ends. *)
Inductive Outcome :=
| Answered
| Failed (e : HTTPException)
| Undefined.

Definition outcome_of {A : Type} (r : Res A) : Outcome :=
  match r with
  | Ok _ _ => Answered
  | Raise e _ => Failed e
  | Wrong => Undefined
  end.

Definition outcome (hash_user : string → string) (req : Request) (w : World) : Outcome :=
  match req with
  | ReqCreateSession sid now p => outcome_of (create_session hash_user sid now p w)
  | ReqDeclareEthics sid p => outcome_of (declare_ethics sid p w)
  | ReqLogAction sid t1 t2 p => outcome_of (log_action sid t1 t2 p w)
  | ReqLlmSummary sid now => outcome_of (llm_summary sid now w)
  | ReqReset sid now => outcome_of (reset sid now w)
  end.

(** Two sessions, the second one created and declared after [demo_requests]. *)
Definition two_session_requests : list Request :=
  demo_requests ++
  [ ReqCreateSession "s-2" "t5"
      {| in_user_id := "bob@example.org"; in_persona := instructor;
         in_scenario_id := "phish" |};
    ReqDeclareEthics "s-2"
      {| acknowledge_no_harm := true; acknowledge_no_real_data := true;
         acknowledge_audit_logging := true; acknowledge_professional_codes := true |} ].

Definition two_session_world : World := exec demo_hash two_session_requests empty_world.

Definition no_flags : EthicsDeclarationIn :=
  {| acknowledge_no_harm := false; acknowledge_no_real_data := false;
     acknowledge_audit_logging := false; acknowledge_professional_codes := false |}.

(** The weighted sum [risk_level] divides by 5. *)
Definition risk_sum (i : Impact) : Z :=
  privacy_exposure i * 2 + community_harm i * 2 + (100 - trust i).

(** A run of [log_action] requests on one session, each with the two clock
    readings of the call and its payload. *)
Definition log_requests (sid : string)
    (calls : list (timestamp * timestamp * ActionLogIn)) : list Request :=
  (λ c, ReqLogAction sid c.1.1 c.1.2 c.2) <$> calls.

(** The five scores of a snapshot, without its timestamp. *)
Definition scores (i : Impact) : Z * Z * Z * Z * Z :=
  (privacy_exposure i, trust i, regulatory_scrutiny i, business_impact i,
   community_harm i).

(** [SCENARIO_IMPACTS.get(label, {"trust": 0})] for a recorded label. *)
Definition table_deltas (label : string) : gmap string Z :=
  dict_get SCENARIO_IMPACTS label {[ "trust" := 0 ]}.

(** The snapshot reached from the baseline by applying, in order, the deltas
    the table gives for the given recorded labels. *)
Definition replay (labels : list string) : Impact :=
  foldl (λ i a, apply_deltas (table_deltas a) "" i) (baseline_dict "") labels.

(** The recorded history accounts for the state: the live scores are the
    replay of the recorded labels, the snapshot of the record at index [k] is
    the replay of the first [k+1] labels, and the latest snapshot is the live
    dictionary's content. *)
Definition explained (w : World) : Prop :=
  ∀ sid s, SESSIONS w !! sid = Some s →
    (∃ i, heap w !! impact s = Some i ∧
          scores i = scores (replay (logged_type <$> actions s))) ∧
    (∀ k r, actions s !! k = Some r →
       ∃ i, heap w !! impact_after r = Some i ∧
            scores i = scores (replay (take (S k) (logged_type <$> actions s)))) ∧
    (∀ r, last (actions s) = Some r →
       heap w !! impact_after r = heap w !! impact s).

(** A [log_action] request on the sample session with the given type. *)
Definition demo_action (a : string) : Request :=
  ReqLogAction "s-1" "t1" "t2"
    {| action_type := a; details := []; intent := "Simulation Decision";
       expected_impact := "Unknown" |}.

(** Ten exploits, three ethical actions, one exploit, six ethical actions. *)
Definition regained_trust_requests : list Request :=
  (take 2 demo_requests ++
   (demo_action <$> (replicate 10 "exploit" ++ replicate 3 "ethical" ++
                     ["exploit"] ++ replicate 6 "ethical")))%list.

(** Two exploits. *)
Definition early_distrust_requests : list Request :=
  (take 2 demo_requests ++ (demo_action <$> replicate 2 "exploit"))%list.

(** [req] is a [create_session] storing under the identifier [sid]. *)
Definition recreates (sid : string) (req : Request) : bool :=
  match req with
  | ReqCreateSession sid' _ _ => bool_decide (sid' = sid)
  | _ => false
  end.

(** The fields of a session that no route but [create_session] assigns. *)
Definition identity (s : Session) : string * Persona * string :=
  (user_id s, persona s, scenario_id s).

(** ** Arithmetic of the helpers *)

Lemma clamp_bounds v lo hi : lo ≤ hi → lo ≤ clamp v lo hi ≤ hi.
Proof. unfold clamp. lia. Qed.

Lemma clamp100_range v : in_range (clamp100 v).
Proof. unfold in_range, clamp100. apply clamp_bounds. lia. Qed.

Lemma clamp100_id v : in_range v → clamp100 v = v.
Proof. unfold in_range, clamp100, clamp. lia. Qed.

(** ** The deltas table *)

Lemma deltas_of_ethical a :
  lower a = "ethical" →
  dict_get (deltas_of a) "trust" 0 = 10 ∧
  dict_get (deltas_of a) "privacy_exposure" 0 = -5 ∧
  dict_get (deltas_of a) "community_harm" 0 = -5.
Proof. unfold deltas_of. intros ->. by vm_compute. Qed.

Lemma deltas_of_exploit a :
  lower a = "exploit" →
  dict_get (deltas_of a) "trust" 0 = -20 ∧
  dict_get (deltas_of a) "privacy_exposure" 0 = 15 ∧
  dict_get (deltas_of a) "community_harm" 0 = 10.
Proof. unfold deltas_of. intros ->. by vm_compute. Qed.

Lemma deltas_of_other a :
  lower a ≠ "ethical" → lower a ≠ "exploit" →
  dict_get (deltas_of a) "trust" 0 = 0 ∧
  dict_get (deltas_of a) "privacy_exposure" 0 = 0 ∧
  dict_get (deltas_of a) "community_harm" 0 = 0.
Proof.
  intros H1 H2. unfold deltas_of, dict_get, SCENARIO_IMPACTS.
  rewrite lookup_insert_ne by done.
  rewrite lookup_singleton_ne by done.
  by vm_compute.
Qed.

(** ** What each route does to the world *)

Lemma dom_insert_present (h : gmap loc Impact) l i :
  is_Some (h !! l) → dom (<[l := i]> h) = dom h.
Proof.
  intros Hl%elem_of_dom. rewrite dom_insert_L.
  apply subseteq_union_1_L. by apply singleton_subseteq_l.
Qed.

Lemma alter_present (m : gmap string Session) k f s :
  m !! k = Some s → alter f k m = <[k := f s]> m.
Proof.
  intros Hk. apply map_eq. intros j.
  destruct (decide (k = j)) as [->|Hne].
  - by rewrite lookup_insert_eq, lookup_alter_eq, Hk.
  - by rewrite lookup_insert_ne, lookup_alter_ne.
Qed.

Lemma alter_just_set (m : gmap string Session) k f s :
  alter f k (<[k := s]> m) = <[k := f s]> m.
Proof.
  rewrite (alter_present _ k f s) by apply lookup_insert_eq.
  apply insert_insert_eq.
Qed.

Lemma log_action_ok sid t1 t2 p w s i :
  SESSIONS w !! sid = Some s →
  ethics_declared s = true →
  heap w !! impact s = Some i →
  let i' := apply_deltas (deltas_of (action_type p)) t1 i in
  let l' := fresh (dom (heap w)) in
  log_action sid t1 t2 p w =
    Ok (true, i')
       {| SESSIONS := <[sid := actions_append (logged_record t2 p l') s]> (SESSIONS w);
          heap := <[l' := i']> (<[impact s := i']> (heap w)) |}.
Proof.
  intros Hs He Hi i' l'.
  unfold log_action, SESSIONS_get, mbind, M_bind. rewrite Hs, He. simpl.
  fold (deltas_of (action_type p)) in *. set (d := deltas_of (action_type p)) in *.
  unfold dict_copy, new_dict, session_update, getitem, setitem, mbind, M_bind, mret, M_ret.
  repeat (progress (rewrite ?Hi, ?lookup_insert_eq, ?insert_insert_eq; simpl)).
  rewrite dom_insert_present by eauto.
  assert (Hne : fresh (dom (heap w)) ≠ impact s).
  { intros Heq. apply (is_fresh (dom (heap w))). rewrite Heq.
    apply elem_of_dom. eauto. }
  rewrite lookup_insert_ne by done. rewrite lookup_insert_eq.
  rewrite (alter_present _ _ _ _ Hs). reflexivity.
Qed.

Lemma log_action_wrong sid t1 t2 p w s :
  SESSIONS w !! sid = Some s →
  ethics_declared s = true →
  heap w !! impact s = None →
  log_action sid t1 t2 p w = Wrong.
Proof.
  intros Hs He Hi.
  unfold log_action, SESSIONS_get, mbind, M_bind. rewrite Hs, He. simpl.
  unfold getitem. by rewrite Hi.
Qed.

Lemma log_action_not_found sid t1 t2 p w :
  SESSIONS w !! sid = None →
  log_action sid t1 t2 p w = Raise not_found w.
Proof.
  intros Hs. unfold log_action, SESSIONS_get, mbind, M_bind. by rewrite Hs.
Qed.

Lemma log_action_gate sid t1 t2 p w s :
  SESSIONS w !! sid = Some s →
  ethics_declared s = false →
  log_action sid t1 t2 p w =
    Raise {| status_code := 403; detail := "Ethics declaration required" |} w.
Proof.
  intros Hs He. unfold log_action, SESSIONS_get, mbind, M_bind. by rewrite Hs, He.
Qed.

Lemma create_session_ok hash_user sid now p w :
  let l := fresh (dom (heap w)) in
  create_session hash_user sid now p w =
    Ok {| out_session_id := sid; out_status := "created" |}
       {| SESSIONS :=
            <[sid := {| user_id := hash_user (in_user_id p);
                        persona := in_persona p;
                        scenario_id := in_scenario_id p;
                        status := "created";
                        ethics_declared := false;
                        impact := l;
                        actions := [];
                        reflections := [] |}]> (SESSIONS w);
          heap := <[l := baseline_dict now]> (heap w) |}.
Proof. reflexivity. Qed.

Lemma declare_ethics_not_found sid p w :
  SESSIONS w !! sid = None →
  declare_ethics sid p w = Raise not_found w.
Proof.
  intros Hs. unfold declare_ethics, SESSIONS_get, mbind, M_bind. by rewrite Hs.
Qed.

Lemma declare_ethics_refused sid p w s :
  SESSIONS w !! sid = Some s →
  acknowledge_no_harm p && acknowledge_no_real_data p = false →
  declare_ethics sid p w =
    Raise {| status_code := 400; detail := "Core ethics must be acknowledged" |} w.
Proof.
  intros Hs Hp. unfold declare_ethics, SESSIONS_get, mbind, M_bind.
  by rewrite Hs, Hp.
Qed.

Lemma declare_ethics_ok sid p w s :
  SESSIONS w !! sid = Some s →
  acknowledge_no_harm p && acknowledge_no_real_data p = true →
  declare_ethics sid p w =
    Ok ("active", true)
       {| SESSIONS := <[sid := set_status "active" (set_ethics_declared true s)]> (SESSIONS w);
          heap := heap w |}.
Proof.
  intros Hs Hp. unfold declare_ethics, SESSIONS_get, mbind, M_bind.
  rewrite Hs, Hp. simpl. unfold session_update, mret, M_ret. simpl.
  rewrite (alter_present _ _ _ _ Hs).
  by rewrite alter_just_set.
Qed.

Lemma reset_not_found sid now w :
  SESSIONS w !! sid = None →
  reset sid now w = Raise not_found w.
Proof.
  intros Hs. unfold reset, SESSIONS_get, mbind, M_bind. by rewrite Hs.
Qed.

Lemma reset_ok sid now w s :
  SESSIONS w !! sid = Some s →
  let l := fresh (dom (heap w)) in
  reset sid now w =
    Ok (true, "reset")
       {| SESSIONS :=
            <[sid := {| user_id := user_id s; persona := persona s;
                        scenario_id := scenario_id s; status := "created";
                        ethics_declared := ethics_declared s; impact := l;
                        actions := []; reflections := [] |}]> (SESSIONS w);
          heap := <[l := baseline_dict now]> (heap w) |}.
Proof.
  intros Hs l. unfold reset, SESSIONS_get, mbind, M_bind.
  rewrite Hs. simpl. unfold session_update, mret, M_ret. simpl.
  rewrite (alter_present _ _ _ _ Hs).
  by rewrite !alter_just_set.
Qed.

Lemma llm_summary_not_found sid now w :
  SESSIONS w !! sid = None →
  llm_summary sid now w = Raise not_found w.
Proof.
  intros Hs. unfold llm_summary, SESSIONS_get, mbind, M_bind. by rewrite Hs.
Qed.

Lemma fake_llm_summary_ok now s w i :
  heap w !! impact s = Some i →
  fake_llm_summary now s w =
    Ok {| headline := if trust i <? 70 then critical_headline else responsible_headline;
          summary_risk_level := risk_level i;
          observations := last_labels (actions s);
          human_impact := if trust i <? 70 then critical_text else responsible_text;
          recommended_next_steps :=
            if trust i <? 70 then critical_steps else responsible_steps;
          generated_at := now |} w.
Proof.
  intros Hi. unfold fake_llm_summary, getitem, mbind, M_bind.
  rewrite Hi. simpl. rewrite Hi. simpl.
  by destruct (trust i <? 70).
Qed.

Lemma fake_llm_summary_wrong now s w :
  heap w !! impact s = None → fake_llm_summary now s w = Wrong.
Proof.
  intros Hi. unfold fake_llm_summary, getitem, mbind, M_bind. by rewrite Hi.
Qed.

Lemma llm_summary_reads_only sid now w :
  world_after (llm_summary sid now w) w = w.
Proof.
  unfold llm_summary, SESSIONS_get, mbind, M_bind.
  destruct (SESSIONS w !! sid) as [s|]; [|done].
  destruct (heap w !! impact s) as [i|] eqn:Hi.
  - by rewrite (fake_llm_summary_ok _ _ _ _ Hi).
  - by rewrite fake_llm_summary_wrong.
Qed.

(** ** Consistency of the store and the object heap *)

Lemma step_transition hash_user req w :
  consistent w → transition w (step hash_user req w).
Proof.
  intros Hw. destruct req as [sid now p|sid p|sid t1 t2 p|sid now|sid now]; unfold step.
  - rewrite create_session_ok. cbn [world_after]. by apply tr_fresh_session.
  - destruct (SESSIONS w !! sid) as [s|] eqn:Hs.
    + destruct (acknowledge_no_harm p && acknowledge_no_real_data p) eqn:Hp.
      * rewrite (declare_ethics_ok _ _ _ _ Hs Hp). cbn [world_after].
        by apply (tr_declared w sid s).
      * rewrite (declare_ethics_refused _ _ _ _ Hs Hp). apply tr_none.
    + rewrite (declare_ethics_not_found _ _ _ Hs). apply tr_none.
  - destruct (SESSIONS w !! sid) as [s|] eqn:Hs.
    + destruct (ethics_declared s) eqn:He.
      * destruct (live_allocated w Hw (impact s)) as [i Hi]; [by exists sid, s|].
        rewrite (log_action_ok _ t1 t2 p _ _ _ Hs He Hi). cbn [world_after].
        by apply (tr_logged w sid s i).
      * rewrite (log_action_gate _ _ _ _ _ _ Hs He). apply tr_none.
    + rewrite (log_action_not_found _ _ _ _ _ Hs). apply tr_none.
  - rewrite llm_summary_reads_only. apply tr_none.
  - destruct (SESSIONS w !! sid) as [s|] eqn:Hs.
    + rewrite (reset_ok _ now _ _ Hs). cbn [world_after]. by apply tr_fresh_session.
    + rewrite (reset_not_found _ _ _ Hs). apply tr_none.
Qed.

Lemma fresh_not_allocated w : ¬ allocated w (fresh (dom (heap w))).
Proof. intros H%elem_of_dom. by apply is_fresh in H. Qed.

Lemma allocated_insert w m l k i :
  allocated w l → allocated {| SESSIONS := m; heap := <[k := i]> (heap w) |} l.
Proof.
  unfold allocated. simpl. intros H. apply lookup_insert_is_Some'. by right.
Qed.

Lemma live_insert m h h' sid s l :
  live {| SESSIONS := <[sid := s]> m; heap := h |} l →
  l = impact s ∨ live {| SESSIONS := m; heap := h' |} l.
Proof.
  intros (k & s0 & Hk & <-). simpl in Hk.
  apply lookup_insert_Some in Hk as [[_ ->]|[_ Hk]]; [by left|].
  right. by exists k, s0.
Qed.

Lemma transition_live w w' l :
  transition w w' → live w' l →
  (l = fresh (dom (heap w)) ∧ allocated w' l) ∨ live w l.
Proof.
  intros Ht Hl. destruct Ht as [|sid s now Hi Ha|sid s s' Hs Hi Ha|sid s i d t r Hs Hi Hr].
  - by right.
  - apply (live_insert _ _ (heap w)) in Hl as [->|Hl].
    + left. split; [done|]. unfold allocated. simpl.
      by rewrite Hi, lookup_insert_eq.
    + right. by destruct w.
  - right. apply (live_insert _ _ (heap w)) in Hl as [->|Hl].
    + exists sid, s. by rewrite Hi.
    + by destruct w.
  - right. apply (live_insert _ _ (heap w)) in Hl as [->|Hl].
    + by exists sid, s.
    + by destruct w.
Qed.

Lemma transition_allocated w w' l :
  transition w w' → allocated w l → allocated w' l.
Proof.
  intros Ht Hl. destruct Ht as [|sid s now Hi Ha|sid s s' Hs Hi Ha|sid s i d t r Hs Hi Hr].
  - done.
  - by apply allocated_insert.
  - done.
  - unfold allocated in *. simpl. rewrite !lookup_insert_is_Some'. auto.
Qed.

Lemma transition_records w w' sid s r :
  transition w w' →
  SESSIONS w' !! sid = Some s → r ∈ actions s →
  impact_after r = fresh (dom (heap w)) ∨
  ∃ s0, SESSIONS w !! sid = Some s0 ∧ r ∈ actions s0.
Proof.
  intros Ht Hs Hr.
  destruct Ht as [|sid1 s1 now Hi Ha|sid1 s1 s' Hs1 Hi Ha|sid1 s1 i d t r1 Hs1 Hi Hr1];
    simpl in Hs.
  - right. by exists s.
  - apply lookup_insert_Some in Hs as [[_ <-]|[_ Hs]].
    + rewrite Ha in Hr. by apply elem_of_nil in Hr.
    + right. by exists s.
  - apply lookup_insert_Some in Hs as [[<- <-]|[_ Hs]].
    + right. exists s1. by rewrite <- Ha.
    + right. by exists s.
  - apply lookup_insert_Some in Hs as [[<- <-]|[_ Hs]].
    + simpl in Hr. apply elem_of_app in Hr as [Hr|Hr].
      * right. by exists s1.
      * apply list_elem_of_singleton in Hr as ->. by left.
    + right. by exists s.
Qed.

Lemma transition_consistent w w' :
  consistent w → transition w w' → consistent w'.
Proof.
  intros Hw Ht.
  assert (Hrec : ∀ sid s r, SESSIONS w' !! sid = Some s → r ∈ actions s →
                 (impact_after r = fresh (dom (heap w)) ∧ allocated w' (impact_after r) ∧
                  ¬ live w' (impact_after r)) ∨
                 (allocated w (impact_after r) ∧ ¬ live w (impact_after r))).
  { intros sid s r Hs Hr.
    destruct (transition_records _ _ _ _ _ Ht Hs Hr) as [Hf|(s0 & Hs0 & Hr0)].
    - destruct Ht as [|sid1 s1 now Hi Ha|sid1 s1 s' Hs1 Hi Ha|sid1 s1 i d t r1 Hs1 Hi Hr1].
      + right. split; [by apply (records_allocated w Hw sid s r)
                      |by apply (records_not_live w Hw sid s r)].
      + right. simpl in Hs. apply lookup_insert_Some in Hs as [[_ <-]|[_ Hs]].
        * rewrite Ha in Hr. by apply elem_of_nil in Hr.
        * split; [by apply (records_allocated w Hw sid s r)
                 |by apply (records_not_live w Hw sid s r)].
      + right. simpl in Hs. apply lookup_insert_Some in Hs as [[<- <-]|[_ Hs]].
        * rewrite Ha in Hr.
          split; [by apply (records_allocated w Hw sid1 s1 r)
                 |by apply (records_not_live w Hw sid1 s1 r)].
        * split; [by apply (records_allocated w Hw sid s r)
                 |by apply (records_not_live w Hw sid s r)].
      + left. split; [done|]. split.
        * unfold allocated. simpl. by rewrite Hf, lookup_insert_eq.
        * intros Hl. apply (live_insert _ _ (heap w)) in Hl.
          apply (fresh_not_allocated w). rewrite <- Hf.
          apply (live_allocated w Hw).
          destruct Hl as [->|Hl]; [by exists sid1, s1|by destruct w].
    - right. split; [by apply (records_allocated w Hw sid s0 r)
                    |by apply (records_not_live w Hw sid s0 r)]. }
  split.
  - intros l Hl. destruct (transition_live _ _ _ Ht Hl) as [[_ Hl']|Hl']; [done|].
    apply (transition_allocated _ _ _ Ht). by apply (live_allocated w Hw).
  - intros sid s r Hs Hr.
    destruct (Hrec sid s r Hs Hr) as [(_ & Ha & _)|[Ha _]]; [done|].
    by apply (transition_allocated _ _ _ Ht).
  - intros sid s r Hs Hr Hl.
    destruct (Hrec sid s r Hs Hr) as [(_ & _ & Hn)|[Ha Hn]]; [done|].
    destruct (transition_live _ _ _ Ht Hl) as [[Hf _]|Hl']; [|done].
    apply (fresh_not_allocated w). by rewrite <- Hf.
Qed.

(** A dictionary that no session refers to is never written again. *)
Lemma transition_frozen w w' l :
  transition w w' →
  allocated w l → ¬ live w l →
  heap w' !! l = heap w !! l ∧ ¬ live w' l.
Proof.
  intros Ht Ha Hn.
  assert (Hf : l ≠ fresh (dom (heap w))).
  { intros ->. by apply (fresh_not_allocated w). }
  split.
  - destruct Ht as [|sid s now Hi Has|sid s s' Hs Hi Has|sid s i d t r Hs Hi Hr]; simpl.
    + done.
    + by rewrite lookup_insert_ne.
    + done.
    + rewrite lookup_insert_ne by done. rewrite lookup_insert_ne; [done|].
      intros <-. apply Hn. by exists sid, s.
  - intros Hl. by destruct (transition_live _ _ _ Ht Hl) as [[-> _]|Hl'].
Qed.

Lemma transition_heap_all (P : Impact → Prop) w w' :
  (∀ now, P (baseline_dict now)) →
  (∀ d t i, P i → P (apply_deltas d t i)) →
  transition w w' → heap_all P w → heap_all P w'.
Proof.
  intros Hb Hd Ht Hw. unfold heap_all in *.
  destruct Ht as [|sid s now Hi Has|sid s s' Hs Hi Has|sid s i d t r Hs Hi Hr]; simpl.
  - done.
  - apply map_Forall_insert_2; [apply Hb|done].
  - done.
  - pose proof (Hw _ _ Hi) as HPi.
    apply map_Forall_insert_2; [by apply Hd|].
    apply map_Forall_insert_2; [by apply Hd|done].
Qed.

(** ** Request sequences preserve the invariants *)

Lemma empty_world_consistent : consistent empty_world.
Proof.
  split.
  - by intros l (sid & s & Hs & _).
  - by intros sid s r Hs.
  - by intros sid s r Hs.
Qed.

Lemma exec_app hash_user reqs1 reqs2 w :
  exec hash_user (reqs1 ++ reqs2) w = exec hash_user reqs2 (exec hash_user reqs1 w).
Proof. apply foldl_app. Qed.

Lemma exec_consistent hash_user reqs w :
  consistent w → consistent (exec hash_user reqs w).
Proof.
  revert w. induction reqs as [|req reqs IH]; intros w Hw; [done|].
  simpl. apply IH. apply (transition_consistent w); [done|].
  by apply step_transition.
Qed.

Lemma exec_heap_all hash_user (P : Impact → Prop) reqs w :
  (∀ now, P (baseline_dict now)) →
  (∀ d t i, P i → P (apply_deltas d t i)) →
  consistent w → heap_all P w → heap_all P (exec hash_user reqs w).
Proof.
  intros Hb Hd. revert w. induction reqs as [|req reqs IH]; intros w Hw HP; [done|].
  simpl. apply IH.
  - apply (transition_consistent w); [done|]. by apply step_transition.
  - apply (transition_heap_all P w); [done..| |done]. by apply step_transition.
Qed.

Lemma exec_frozen hash_user reqs w l :
  consistent w → allocated w l → ¬ live w l →
  heap (exec hash_user reqs w) !! l = heap w !! l.
Proof.
  revert w. induction reqs as [|req reqs IH]; intros w Hw Ha Hn; [done|].
  simpl.
  pose proof (step_transition hash_user req w Hw) as Ht.
  destruct (transition_frozen _ _ l Ht Ha Hn) as [Heq Hn'].
  rewrite IH; [done| |by apply (transition_allocated _ _ _ Ht)|done].
  by apply (transition_consistent w).
Qed.

(** In a consistent world every reference leads to a dictionary, so the
    routes that read the heap always answer or raise. *)
Lemma log_action_defined sid t1 t2 p w :
  consistent w → log_action sid t1 t2 p w ≠ Wrong.
Proof.
  intros Hw. destruct (SESSIONS w !! sid) as [s|] eqn:Hs.
  - destruct (ethics_declared s) eqn:He.
    + destruct (live_allocated w Hw (impact s)) as [i Hi]; [by exists sid, s|].
      by rewrite (log_action_ok _ t1 t2 p _ _ _ Hs He Hi).
    + by rewrite (log_action_gate _ _ _ _ _ _ Hs He).
  - by rewrite (log_action_not_found _ _ _ _ _ Hs).
Qed.

Lemma llm_summary_defined sid now w :
  consistent w → llm_summary sid now w ≠ Wrong.
Proof.
  intros Hw. destruct (SESSIONS w !! sid) as [s|] eqn:Hs.
  - destruct (live_allocated w Hw (impact s)) as [i Hi]; [by exists sid, s|].
    unfold llm_summary, SESSIONS_get, mbind, M_bind. rewrite Hs.
    by rewrite (fake_llm_summary_ok _ _ _ _ Hi).
  - by rewrite (llm_summary_not_found _ _ _ Hs).
Qed.

(** ** Scores *)

Lemma apply_deltas_in_range d t i :
  scores_in_range i → scores_in_range (apply_deltas d t i).
Proof.
  intros (Hp & Ht & Hr & Hb & Hc). unfold apply_deltas, scores_in_range. simpl.
  repeat split; try apply clamp100_range; try apply Hr; apply Hb.
Qed.

Lemma baseline_in_range now : scores_in_range (baseline_dict now).
Proof. unfold scores_in_range, in_range. simpl. lia. Qed.

Lemma reachable_heap_in_range hash_user reqs l i :
  heap (exec hash_user reqs empty_world) !! l = Some i → scores_in_range i.
Proof.
  revert l i. apply (exec_heap_all hash_user scores_in_range).
  - apply baseline_in_range.
  - apply apply_deltas_in_range.
  - apply empty_world_consistent.
  - apply map_Forall_empty.
Qed.

Lemma session_impact_allocated hash_user reqs sid s :
  SESSIONS (exec hash_user reqs empty_world) !! sid = Some s →
  is_Some (heap (exec hash_user reqs empty_world) !! impact s).
Proof.
  intros Hs.
  apply (live_allocated _ (exec_consistent hash_user reqs _ empty_world_consistent)).
  by exists sid, s.
Qed.

(** C1. In every world reached by any sequence of requests, the impact
    dictionary of every session has all five scores within [0,100]; so has
    every dictionary on the heap (the copies kept in action records), and each
    single assignment of [log_action], which stores a clamped value, keeps a
    snapshot in range. *)
Theorem scores_stay_in_range hash_user reqs sid s :
  SESSIONS (exec hash_user reqs empty_world) !! sid = Some s →
  (∃ i, heap (exec hash_user reqs empty_world) !! impact s = Some i ∧
        scores_in_range i) ∧
  heap_all scores_in_range (exec hash_user reqs empty_world) ∧
  (∀ i v, scores_in_range i →
     scores_in_range (set_trust (clamp100 v) i) ∧
     scores_in_range (set_privacy_exposure (clamp100 v) i) ∧
     scores_in_range (set_community_harm (clamp100 v) i)).
Proof.
  intros Hs.
  assert (Hall : heap_all scores_in_range (exec hash_user reqs empty_world)).
  { intros l i. apply reachable_heap_in_range. }
  split; [|split; [done|]].
  - destruct (session_impact_allocated _ _ _ _ Hs) as [i Hi].
    exists i. split; [done|]. by apply (Hall _ _ Hi).
  - intros i v (Hp & Ht & Hr & Hb & Hc). unfold scores_in_range. simpl.
    pose proof (clamp100_range v). tauto.
Qed.

(** C10. In every world reached by any sequence of requests,
    [regulatory_scrutiny] and [business_impact] are exactly 0 in the impact
    dictionary of every session, and in every dictionary on the heap. *)
Theorem untouched_scores_stay_zero hash_user reqs sid s :
  SESSIONS (exec hash_user reqs empty_world) !! sid = Some s →
  (∃ i, heap (exec hash_user reqs empty_world) !! impact s = Some i ∧
        regulatory_scrutiny i = 0 ∧ business_impact i = 0) ∧
  heap_all untouched_zero (exec hash_user reqs empty_world).
Proof.
  intros Hs.
  assert (Hall : heap_all untouched_zero (exec hash_user reqs empty_world)).
  { apply exec_heap_all.
    - done.
    - by intros d t i [Hr Hb].
    - apply empty_world_consistent.
    - apply map_Forall_empty. }
  split; [|done].
  destruct (session_impact_allocated _ _ _ _ Hs) as [i Hi].
  exists i. split; [done|]. by apply (Hall _ _ Hi).
Qed.

(** ** Risk classification *)

(** C2. [risk_level] depends on the snapshot only through
    [privacy_exposure], [community_harm] and [trust]: the score is the floor
    [q] of [(privacy_exposure*2 + community_harm*2 + (100 - trust)) / 5] held
    within [0,100], that is [max 0 (min 100 q)]: 0 for a negative [q], 100
    above 100 and [q] itself in between; the level is High from 60, Medium
    from 30 and Low below; snapshots that agree on the three scores get the
    same level. *)
Theorem risk_level_formula (i : Impact) :
  (∃ q score,
     5 * q ≤ privacy_exposure i * 2 + community_harm i * 2 + (100 - trust i) < 5 * q + 5 ∧
     score = Z.max 0 (Z.min 100 q) ∧
     (q < 0 → score = 0) ∧
     (0 ≤ q ≤ 100 → score = q) ∧
     (100 < q → score = 100) ∧
     (60 ≤ score → risk_level i = "High") ∧
     (30 ≤ score < 60 → risk_level i = "Medium") ∧
     (score < 30 → risk_level i = "Low")) ∧
  (∀ j, privacy_exposure j = privacy_exposure i →
        community_harm j = community_harm i →
        trust j = trust i →
        risk_level j = risk_level i).
Proof.
  split.
  - set (n := privacy_exposure i * 2 + community_harm i * 2 + (100 - trust i)).
    exists (n / 5), (Z.max 0 (Z.min 100 (n / 5))).
    split; [|split; [done|]].
    + pose proof (Z.div_mod n 5 ltac:(lia)) as Hdm.
      pose proof (Z.mod_pos_bound n 5 ltac:(lia)) as Hm. lia.
    + do 3 (split; [lia|]).
      unfold risk_level, clamp. fold n.
      repeat split; intros H.
      * destruct (Z.leb_spec 60 (Z.max 0 (Z.min 100 (n / 5)))); [done|lia].
      * destruct (Z.leb_spec 60 (Z.max 0 (Z.min 100 (n / 5)))); [lia|].
        destruct (Z.leb_spec 30 (Z.max 0 (Z.min 100 (n / 5)))); [done|lia].
      * destruct (Z.leb_spec 60 (Z.max 0 (Z.min 100 (n / 5)))); [lia|].
        destruct (Z.leb_spec 30 (Z.max 0 (Z.min 100 (n / 5)))); [lia|done].
  - intros j Hp Hc Ht. unfold risk_level. by rewrite Hp, Hc, Ht.
Qed.

(** ** Reset *)

(** C3. On an existing session [reset] answers, leaves the session pointing
    to a new baseline dictionary (trust 100, every other score 0), with empty
    [actions] and [reflections] and status [created], and keeps [user_id],
    [persona], [scenario_id] and [ethics_declared]; on an unknown identifier
    it raises 404 (NotFound) and changes nothing. *)
Theorem reset_restores_baseline sid now w :
  (∀ s, SESSIONS w !! sid = Some s →
     ∃ w' s' i',
       reset sid now w = Ok (true, "reset") w' ∧
       SESSIONS w' !! sid = Some s' ∧
       heap w' !! impact s' = Some i' ∧
       i' = baseline_dict now ∧
       trust i' = 100 ∧ privacy_exposure i' = 0 ∧ regulatory_scrutiny i' = 0 ∧
       business_impact i' = 0 ∧ community_harm i' = 0 ∧
       actions s' = [] ∧ reflections s' = [] ∧ status s' = "created" ∧
       user_id s' = user_id s ∧ persona s' = persona s ∧
       scenario_id s' = scenario_id s ∧ ethics_declared s' = ethics_declared s) ∧
  (SESSIONS w !! sid = None →
     ∃ e, reset sid now w = Raise e w ∧ error_kind e = Some NotFound).
Proof.
  split.
  - intros s Hs. eexists _, _, _.
    split; [apply (reset_ok _ _ _ _ Hs)|]. simpl.
    split; [apply lookup_insert_eq|]. simpl.
    split; [apply lookup_insert_eq|]. by repeat split.
  - intros Hs. exists not_found. split; [by apply reset_not_found|done].
Qed.

(** ** The ethics gate *)

(** C4. On an existing session [declare_ethics] raises 400
    (PreconditionFailed) and leaves the world as it was whenever the no-harm
    and no-real-data acknowledgments are not both true; when both are true it
    answers with [ethics_declared] true and status [active], whatever the two
    other flags are, and a further declaration on the resulting world answers
    again and changes nothing. *)
Theorem declare_ethics_gate sid p w s :
  SESSIONS w !! sid = Some s →
  (acknowledge_no_harm p && acknowledge_no_real_data p = false →
     ∃ e, declare_ethics sid p w = Raise e w ∧
          error_kind e = Some PreconditionFailed) ∧
  (acknowledge_no_harm p = true → acknowledge_no_real_data p = true →
     ∃ w' s',
       declare_ethics sid p w = Ok ("active", true) w' ∧
       SESSIONS w' !! sid = Some s' ∧
       ethics_declared s' = true ∧ status s' = "active" ∧
       user_id s' = user_id s ∧ persona s' = persona s ∧
       scenario_id s' = scenario_id s ∧ impact s' = impact s ∧
       actions s' = actions s ∧ reflections s' = reflections s ∧
       heap w' = heap w ∧
       ∀ p2, acknowledge_no_harm p2 = true → acknowledge_no_real_data p2 = true →
             declare_ethics sid p2 w' = Ok ("active", true) w') ∧
  (∀ p2, acknowledge_no_harm p2 = acknowledge_no_harm p →
         acknowledge_no_real_data p2 = acknowledge_no_real_data p →
         declare_ethics sid p2 w = declare_ethics sid p w).
Proof.
  intros Hs. split; [|split].
  - intros Hp. eexists. split; [by apply (declare_ethics_refused _ _ _ s)|done].
  - intros H1 H2. eexists _, _.
    split; [apply (declare_ethics_ok _ _ _ _ Hs); by rewrite H1, H2|]. simpl.
    split; [apply lookup_insert_eq|]. simpl. repeat split.
    intros p2 H3 H4.
    rewrite (declare_ethics_ok _ p2 _ (set_status "active" (set_ethics_declared true s)));
      [|apply lookup_insert_eq|by rewrite H3, H4].
    simpl. by rewrite insert_insert_eq.
  - intros p2 H1 H2. unfold declare_ethics, mbind, M_bind. by rewrite H1, H2.
Qed.

(** C5. [log_action] on an existing session whose ethics are not declared
    raises 403 (PreconditionFailed) whatever the payload, and on an unknown
    identifier raises 404 (NotFound); in both cases the world at the raise is
    the world of the call, so impact and action history are untouched. *)
Theorem log_action_requires_ethics sid t1 t2 p w :
  (∀ s, SESSIONS w !! sid = Some s → ethics_declared s = false →
     ∃ e, log_action sid t1 t2 p w = Raise e w ∧
          error_kind e = Some PreconditionFailed) ∧
  (SESSIONS w !! sid = None →
     ∃ e, log_action sid t1 t2 p w = Raise e w ∧ error_kind e = Some NotFound).
Proof.
  split.
  - intros s Hs He. eexists. split; [by apply (log_action_gate _ _ _ _ _ s)|done].
  - intros Hs. exists not_found. split; [by apply log_action_not_found|done].
Qed.

(** ** Applying an action *)

(** C6. A successful [log_action] looks the lowercased action type up and
    leaves in the session's impact dictionary, for trust, privacy_exposure and
    community_harm, the sum [current + delta] held within [0,100], that is
    [max 0 (min 100 (current + delta))], with [updated_at] the time of the
    call: +10, -5, -5 for "ethical"; -20, +15, +10 for "exploit"; delta 0 for
    any other type, which changes no score of a snapshot within [0,100], as
    every snapshot of a reachable world is. The three scores end within
    [0,100] whatever they were; the two other scores are never written. The
    appended record carries the lowercased type. *)
Theorem log_action_applies_deltas sid t1 t2 p w s i :
  SESSIONS w !! sid = Some s →
  ethics_declared s = true →
  heap w !! impact s = Some i →
  ∃ body w' s' r,
    log_action sid t1 t2 p w = Ok (true, body) w' ∧
    SESSIONS w' !! sid = Some s' ∧ impact s' = impact s ∧
    actions s' = (actions s ++ [r])%list ∧ logged_type r = lower (action_type p) ∧
    heap w' !! impact s = Some body ∧
    updated_at body = t1 ∧
    regulatory_scrutiny body = regulatory_scrutiny i ∧
    business_impact body = business_impact i ∧
    (0 ≤ trust body ≤ 100 ∧ 0 ≤ privacy_exposure body ≤ 100 ∧
     0 ≤ community_harm body ≤ 100) ∧
    (lower (action_type p) = "ethical" →
       trust body = Z.max 0 (Z.min 100 (trust i + 10)) ∧
       privacy_exposure body = Z.max 0 (Z.min 100 (privacy_exposure i - 5)) ∧
       community_harm body = Z.max 0 (Z.min 100 (community_harm i - 5))) ∧
    (lower (action_type p) = "exploit" →
       trust body = Z.max 0 (Z.min 100 (trust i - 20)) ∧
       privacy_exposure body = Z.max 0 (Z.min 100 (privacy_exposure i + 15)) ∧
       community_harm body = Z.max 0 (Z.min 100 (community_harm i + 10))) ∧
    (lower (action_type p) ≠ "ethical" → lower (action_type p) ≠ "exploit" →
       trust body = Z.max 0 (Z.min 100 (trust i)) ∧
       privacy_exposure body = Z.max 0 (Z.min 100 (privacy_exposure i)) ∧
       community_harm body = Z.max 0 (Z.min 100 (community_harm i)) ∧
       (scores_in_range i ∨ (∃ hash_user reqs, w = exec hash_user reqs empty_world) →
          trust body = trust i ∧
          privacy_exposure body = privacy_exposure i ∧
          community_harm body = community_harm i ∧
          regulatory_scrutiny body = regulatory_scrutiny i ∧
          business_impact body = business_impact i)).
Proof.
  intros Hs He Hi. eexists _, _, _, _.
  split; [apply (log_action_ok _ _ _ _ _ _ _ Hs He Hi)|]. simpl.
  split; [apply lookup_insert_eq|]. simpl.
  do 3 (split; [reflexivity|]).
  split.
  { rewrite lookup_insert_ne; [apply lookup_insert_eq|].
    intros Heq. apply (fresh_not_allocated w). rewrite Heq. by exists i. }
  do 3 (split; [reflexivity|]).
  split. { unfold clamp100, clamp. lia. }
  split; [|split].
  - intros Ha. destruct (deltas_of_ethical _ Ha) as (-> & -> & ->). done.
  - intros Ha. destruct (deltas_of_exploit _ Ha) as (-> & -> & ->). done.
  - intros H1 H2. destruct (deltas_of_other _ H1 H2) as (-> & -> & ->).
    rewrite !Z.add_0_r.
    do 3 (split; [reflexivity|]).
    intros Hrange.
    assert (scores_in_range i) as (Hp & Ht & Hr & Hb & Hc).
    { destruct Hrange as [Hrange|(hash_user & reqs & ->)]; [done|].
      by apply (reachable_heap_in_range hash_user reqs (impact s)). }
    rewrite !clamp100_id by done. done.
Qed.

(** ** Five exploits *)

Lemma session_at_impact w sid i : session_at w sid i → session_impact w sid = Some i.
Proof. intros (s & Hs & _ & Hi). unfold session_impact. by rewrite Hs. Qed.

Lemma step_log_at hash_user sid t1 t2 p w i :
  session_at w sid i →
  session_at (step hash_user (ReqLogAction sid t1 t2 p) w) sid
             (apply_deltas (deltas_of (action_type p)) t1 i).
Proof.
  intros (s & Hs & He & Hi). unfold step.
  rewrite (log_action_ok _ t1 t2 p _ _ _ Hs He Hi). cbn [world_after].
  eexists. simpl. split; [apply lookup_insert_eq|]. split; [done|]. simpl.
  rewrite lookup_insert_ne; [apply lookup_insert_eq|].
  intros Heq. apply (fresh_not_allocated w). rewrite Heq. by exists i.
Qed.

Lemma create_then_declare_at hash_user sid now c f w :
  acknowledge_no_harm f = true → acknowledge_no_real_data f = true →
  session_at (step hash_user (ReqDeclareEthics sid f)
                (step hash_user (ReqCreateSession sid now c) w))
             sid (baseline_dict now).
Proof.
  intros H1 H2. unfold step at 2. rewrite create_session_ok. cbn [world_after].
  unfold step. erewrite declare_ethics_ok;
    [|apply lookup_insert_eq|by rewrite H1, H2].
  cbn [world_after]. eexists. simpl.
  split; [apply lookup_insert_eq|]. split; [done|]. simpl. apply lookup_insert_eq.
Qed.

Lemma apply_deltas_exploit a t i :
  lower a = "exploit" →
  apply_deltas (deltas_of a) t i =
    {| privacy_exposure := clamp100 (privacy_exposure i + 15);
       trust := clamp100 (trust i - 20);
       regulatory_scrutiny := regulatory_scrutiny i;
       business_impact := business_impact i;
       community_harm := clamp100 (community_harm i + 10);
       updated_at := t |}.
Proof.
  intros Ha. unfold apply_deltas.
  by destruct (deltas_of_exploit _ Ha) as (-> & -> & ->).
Qed.

(** C7, as the code has it. From any world, creating a session, declaring
    ethics with both core acknowledgments and then logging five actions of
    type "exploit" takes trust through 100, 80, 60, 40, 20, 0 and ends with
    risk level High. *)
Theorem five_exploits_after_declaration hash_user w sid now c f
    (tu tl : nat → timestamp) (ps : nat → ActionLogIn) :
  acknowledge_no_harm f = true →
  acknowledge_no_real_data f = true →
  (∀ k, lower (action_type (ps k)) = "exploit") →
  let reqs :=
    [ ReqCreateSession sid now c; ReqDeclareEthics sid f;
      ReqLogAction sid (tu 1%nat) (tl 1%nat) (ps 1%nat);
      ReqLogAction sid (tu 2%nat) (tl 2%nat) (ps 2%nat);
      ReqLogAction sid (tu 3%nat) (tl 3%nat) (ps 3%nat);
      ReqLogAction sid (tu 4%nat) (tl 4%nat) (ps 4%nat);
      ReqLogAction sid (tu 5%nat) (tl 5%nat) (ps 5%nat) ] in
  (λ k, trust <$> session_impact (exec hash_user (take k reqs) w) sid)
    <$> [2; 3; 4; 5; 6; 7]%nat
  = Some <$> [100; 80; 60; 40; 20; 0] ∧
  risk_level <$> session_impact (exec hash_user reqs w) sid = Some "High".
Proof.
  intros H1 H2 Hps reqs.
  pose proof (create_then_declare_at hash_user sid now c f w H1 H2) as A0.
  pose proof (step_log_at hash_user sid (tu 1%nat) (tl 1%nat) (ps 1%nat) _ _ A0) as A1.
  rewrite apply_deltas_exploit in A1 by apply Hps.
  pose proof (step_log_at hash_user sid (tu 2%nat) (tl 2%nat) (ps 2%nat) _ _ A1) as A2.
  rewrite apply_deltas_exploit in A2 by apply Hps.
  pose proof (step_log_at hash_user sid (tu 3%nat) (tl 3%nat) (ps 3%nat) _ _ A2) as A3.
  rewrite apply_deltas_exploit in A3 by apply Hps.
  pose proof (step_log_at hash_user sid (tu 4%nat) (tl 4%nat) (ps 4%nat) _ _ A3) as A4.
  rewrite apply_deltas_exploit in A4 by apply Hps.
  pose proof (step_log_at hash_user sid (tu 5%nat) (tl 5%nat) (ps 5%nat) _ _ A4) as A5.
  rewrite apply_deltas_exploit in A5 by apply Hps.
  apply session_at_impact in A0, A1, A2, A3, A4, A5.
  unfold reqs, exec. cbn -[step session_impact risk_level].
  rewrite A0, A1, A2, A3, A4, A5. split; reflexivity.
Qed.

(** ** The narrative summary *)

Lemma last_labels_suffix (l : list ActionRecord) :
  last_labels l `suffix_of` (logged_type <$> l).
Proof.
  destruct l as [|r l]; [done|]. unfold last_labels.
  set (n := (length (r :: l) - 3)%nat).
  exists (logged_type <$> take n (r :: l)).
  by rewrite <- fmap_app, take_drop.
Qed.

Lemma last_labels_length (l : list ActionRecord) :
  length (last_labels l) = (length l `min` 3)%nat.
Proof.
  destruct l as [|r l]; [done|]. unfold last_labels.
  rewrite length_fmap, length_drop. lia.
Qed.

(** C8. Two calls of [llm_summary] on the same world both answer, leave the
    world as it was, and agree on headline, risk level, observations,
    narrative and recommendations; only [generated_at] follows the clock.
    Headline, narrative and the three recommendations are chosen by
    [trust < 70] alone, and the observations are the labels of the last
    [min 3 n] of the [n] logged actions, in logging order. *)
Theorem llm_summary_deterministic sid t1 t2 w s i :
  SESSIONS w !! sid = Some s →
  heap w !! impact s = Some i →
  ∃ r1 r2,
    llm_summary sid t1 w = Ok r1 w ∧
    llm_summary sid t2 w = Ok r2 w ∧
    headline r1 = headline r2 ∧
    summary_risk_level r1 = summary_risk_level r2 ∧
    observations r1 = observations r2 ∧
    human_impact r1 = human_impact r2 ∧
    recommended_next_steps r1 = recommended_next_steps r2 ∧
    generated_at r1 = t1 ∧ generated_at r2 = t2 ∧
    summary_risk_level r1 = risk_level i ∧
    (trust i < 70 →
       headline r1 = "⚠️ Critical Risk Assessment" ∧
       human_impact r1 = critical_text ∧
       recommended_next_steps r1 = critical_steps) ∧
    (70 ≤ trust i →
       headline r1 = "✅ Responsible Operation Summary" ∧
       human_impact r1 = responsible_text ∧
       recommended_next_steps r1 = responsible_steps) ∧
    length (recommended_next_steps r1) = 3%nat ∧
    observations r1 `suffix_of` (logged_type <$> actions s) ∧
    length (observations r1) = (length (actions s) `min` 3)%nat.
Proof.
  intros Hs Hi. eexists _, _.
  unfold llm_summary, SESSIONS_get, mbind, M_bind. rewrite Hs.
  rewrite !(fake_llm_summary_ok _ _ _ _ Hi).
  do 2 (split; [reflexivity|]). simpl.
  do 8 (split; [reflexivity|]).
  split; [|split; [|split; [|split]]].
  - intros Ht. apply Z.ltb_lt in Ht. by rewrite Ht.
  - intros Ht. apply Z.ltb_ge in Ht. by rewrite Ht.
  - by destruct (trust i <? 70).
  - apply last_labels_suffix.
  - apply last_labels_length.
Qed.

(** ** The audit trail *)

Lemma step_extends_history hash_user req w sid0 s0 :
  consistent w →
  keeps_history req = true →
  SESSIONS w !! sid0 = Some s0 →
  ∃ s1, SESSIONS (step hash_user req w) !! sid0 = Some s1 ∧
        (actions s1 = actions s0 ∨ ∃ r, actions s1 = (actions s0 ++ [r])%list).
Proof.
  intros Hw Hk Hs0.
  destruct req as [sid now p|sid p|sid t1 t2 p|sid now|sid now]; try done; unfold step.
  - destruct (SESSIONS w !! sid) as [s|] eqn:Hs.
    + destruct (acknowledge_no_harm p && acknowledge_no_real_data p) eqn:Hp.
      * rewrite (declare_ethics_ok _ _ _ _ Hs Hp). cbn [world_after SESSIONS].
        destruct (decide (sid = sid0)) as [->|Hne].
        -- rewrite lookup_insert_eq. eexists. split; [done|]. left.
           rewrite Hs0 in Hs. by injection Hs as ->.
        -- rewrite lookup_insert_ne by done. eauto.
      * rewrite (declare_ethics_refused _ _ _ _ Hs Hp). eauto.
    + rewrite (declare_ethics_not_found _ _ _ Hs). eauto.
  - destruct (SESSIONS w !! sid) as [s|] eqn:Hs.
    + destruct (ethics_declared s) eqn:He.
      * destruct (live_allocated w Hw (impact s)) as [i Hi]; [by exists sid, s|].
        rewrite (log_action_ok _ t1 t2 p _ _ _ Hs He Hi). cbn [world_after SESSIONS].
        destruct (decide (sid = sid0)) as [->|Hne].
        -- rewrite lookup_insert_eq. eexists. split; [done|]. right.
           rewrite Hs0 in Hs. injection Hs as ->. eauto.
        -- rewrite lookup_insert_ne by done. eauto.
      * rewrite (log_action_gate _ _ _ _ _ _ Hs He). eauto.
    + rewrite (log_action_not_found _ _ _ _ _ Hs). eauto.
  - rewrite llm_summary_reads_only. eauto.
Qed.

(** C9. In any reachable world a successful [log_action] appends exactly one
    record at the end of the session's [actions] and touches no other
    session; the record's [impact_after] is a dictionary of its own, distinct
    from the live one and equal to it at that moment, and no later sequence
    of requests changes it, nor the snapshot of any record logged before.
    Requests other than [reset] and [create_session] keep every history or
    extend it at the end. *)
Theorem action_records_frozen hash_user reqs0 sid t1 t2 p s :
  SESSIONS (exec hash_user reqs0 empty_world) !! sid = Some s →
  ethics_declared s = true →
  ∃ body w' s' r,
    log_action sid t1 t2 p (exec hash_user reqs0 empty_world) = Ok (true, body) w' ∧
    SESSIONS w' !! sid = Some s' ∧
    actions s' = (actions s ++ [r])%list ∧
    (∀ sid', sid' ≠ sid →
       SESSIONS w' !! sid' = SESSIONS (exec hash_user reqs0 empty_world) !! sid') ∧
    ts r = t2 ∧ logged_type r = lower (action_type p) ∧
    logged_details r = details p ∧
    impact_after r ≠ impact s' ∧
    heap w' !! impact s' = Some body ∧
    heap w' !! impact_after r = Some body ∧
    (∀ reqs, heap (exec hash_user reqs w') !! impact_after r = Some body) ∧
    (∀ reqs sid0 s0 r0,
       SESSIONS w' !! sid0 = Some s0 → r0 ∈ actions s0 →
       heap (exec hash_user reqs w') !! impact_after r0 = heap w' !! impact_after r0) ∧
    (∀ req sid0 s0,
       keeps_history req = true → SESSIONS w' !! sid0 = Some s0 →
       ∃ s1, SESSIONS (step hash_user req w') !! sid0 = Some s1 ∧
             (actions s1 = actions s0 ∨ ∃ r1, actions s1 = (actions s0 ++ [r1])%list)).
Proof.
  intros Hs He.
  set (w := exec hash_user reqs0 empty_world) in *.
  assert (Hw : consistent w) by apply exec_consistent, empty_world_consistent.
  destruct (live_allocated w Hw (impact s)) as [i Hi]; [by exists sid, s|].
  pose proof (log_action_ok _ t1 t2 p _ _ _ Hs He Hi) as Hrun. cbv zeta in Hrun.
  set (body := apply_deltas (deltas_of (action_type p)) t1 i) in *.
  set (l' := fresh (dom (heap w))) in *.
  set (w' := {| SESSIONS := <[sid := actions_append (logged_record t2 p l') s]> (SESSIONS w);
                heap := <[l' := body]> (<[impact s := body]> (heap w)) |}) in *.
  assert (Hw' : consistent w').
  { apply (transition_consistent w); [done|].
    pose proof (step_transition hash_user (ReqLogAction sid t1 t2 p) w Hw) as Ht.
    unfold step in Ht. by rewrite Hrun in Ht. }
  assert (Hne : l' ≠ impact s).
  { intros Heq. apply (fresh_not_allocated w). fold l'. rewrite Heq. by exists i. }
  assert (Hfrozen : ∀ reqs sid0 s0 r0,
             SESSIONS w' !! sid0 = Some s0 → r0 ∈ actions s0 →
             heap (exec hash_user reqs w') !! impact_after r0 = heap w' !! impact_after r0).
  { intros reqs sid0 s0 r0 Hs0 Hr0. apply exec_frozen; [done| |].
    - by apply (records_allocated w' Hw' sid0 s0).
    - by apply (records_not_live w' Hw' sid0 s0). }
  assert (Hs' : SESSIONS w' !! sid = Some (actions_append (logged_record t2 p l') s))
    by apply lookup_insert_eq.
  assert (Hcopy : heap w' !! l' = Some body) by apply lookup_insert_eq.
  exists body, w', (actions_append (logged_record t2 p l') s), (logged_record t2 p l').
  split; [done|]. split; [done|]. split; [done|].
  split. { intros sid' Hsid. simpl. by rewrite lookup_insert_ne. }
  do 3 (split; [done|]). split; [done|].
  split. { simpl. rewrite lookup_insert_ne by done. apply lookup_insert_eq. }
  split; [done|].
  split.
  { intros reqs. rewrite <- Hcopy.
    apply (Hfrozen reqs sid _ (logged_record t2 p l') Hs').
    simpl. apply elem_of_app. right. by apply list_elem_of_singleton. }
  split; [done|].
  intros req sid0 s0 Hk Hs0. by apply step_extends_history.
Qed.

(** * Further properties of the routes *)

(** ** Sessions do not share state *)

Lemma separate_update w sid s s' h :
  SESSIONS w !! sid = Some s → impact s' = impact s →
  separate w → separate {| SESSIONS := <[sid := s']> (SESSIONS w); heap := h |}.
Proof.
  intros Hs Hi Hsep sid1 sid2 s1 s2 H1 H2 Heq. simpl in H1, H2.
  apply lookup_insert_Some in H1 as [[<- <-]|[Hn1 H1]];
    apply lookup_insert_Some in H2 as [[<- <-]|[Hn2 H2]].
  - done.
  - rewrite Hi in Heq. apply (Hsep _ _ _ _ Hs H2 Heq).
  - rewrite Hi in Heq. apply (Hsep _ _ _ _ H1 Hs Heq).
  - apply (Hsep _ _ _ _ H1 H2 Heq).
Qed.

Lemma separate_fresh w sid s h :
  consistent w → impact s = fresh (dom (heap w)) →
  separate w → separate {| SESSIONS := <[sid := s]> (SESSIONS w); heap := h |}.
Proof.
  intros Hw Hi Hsep sid1 sid2 s1 s2 H1 H2 Heq. simpl in H1, H2.
  apply lookup_insert_Some in H1 as [[<- <-]|[Hn1 H1]];
    apply lookup_insert_Some in H2 as [[<- <-]|[Hn2 H2]].
  - done.
  - exfalso. apply (fresh_not_allocated w). rewrite <- Hi, Heq.
    apply (live_allocated w Hw). by exists sid2, s2.
  - exfalso. apply (fresh_not_allocated w). rewrite <- Hi, <- Heq.
    apply (live_allocated w Hw). by exists sid1, s1.
  - apply (Hsep _ _ _ _ H1 H2 Heq).
Qed.

Lemma transition_separate w w' :
  consistent w → separate w → transition w w' → separate w'.
Proof.
  intros Hw Hsep Ht.
  destruct Ht as [|sid s now Hi Ha|sid s s' Hs Hi Ha|sid s i d t r Hs Hi Hr].
  - done.
  - by apply separate_fresh.
  - by apply (separate_update w sid s).
  - by apply (separate_update w sid s).
Qed.

Lemma exec_separate hash_user reqs w :
  consistent w → separate w → separate (exec hash_user reqs w).
Proof.
  revert w. induction reqs as [|req reqs IH]; intros w Hw Hsep; [done|].
  simpl. pose proof (step_transition hash_user req w Hw) as Ht. apply IH.
  - by apply (transition_consistent w).
  - by apply (transition_separate w).
Qed.

Lemma empty_world_separate : separate empty_world.
Proof. by intros sid1 sid2 s1 s2 H1. Qed.

(** A request writes the store only at the identifier it addresses, and the
    heap only at the impact dictionary of that session. *)
Lemma step_frame hash_user req w :
  consistent w →
  (∀ sid', sid' ≠ target req →
     SESSIONS (step hash_user req w) !! sid' = SESSIONS w !! sid') ∧
  (∀ l, allocated w l →
        (∀ s, SESSIONS w !! target req = Some s → l ≠ impact s) →
        heap (step hash_user req w) !! l = heap w !! l).
Proof.
  intros Hw.
  assert (Hfresh : ∀ l, allocated w l → l ≠ fresh (dom (heap w))).
  { intros l Hl ->. by apply (fresh_not_allocated w). }
  destruct req as [sid now p|sid p|sid t1 t2 p|sid now|sid now]; unfold step, target.
  - rewrite create_session_ok. cbn [world_after]. simpl. split.
    + intros sid' Hne. by rewrite lookup_insert_ne.
    + intros l Hl _. rewrite lookup_insert_ne; [done|]. intros Heq.
      by apply (Hfresh l).
  - destruct (SESSIONS w !! sid) as [s|] eqn:Hs.
    + destruct (acknowledge_no_harm p && acknowledge_no_real_data p) eqn:Hp.
      * rewrite (declare_ethics_ok _ _ _ _ Hs Hp). cbn [world_after]. simpl.
        split; [|done]. intros sid' Hne. by rewrite lookup_insert_ne.
      * by rewrite (declare_ethics_refused _ _ _ _ Hs Hp).
    + by rewrite (declare_ethics_not_found _ _ _ Hs).
  - destruct (SESSIONS w !! sid) as [s|] eqn:Hs.
    + destruct (ethics_declared s) eqn:He.
      * destruct (live_allocated w Hw (impact s)) as [i Hi]; [by exists sid, s|].
        rewrite (log_action_ok _ t1 t2 p _ _ _ Hs He Hi). cbn [world_after]. simpl.
        split.
        -- intros sid' Hne. by rewrite lookup_insert_ne.
        -- intros l Hl Hnot. rewrite lookup_insert_ne.
           ++ rewrite lookup_insert_ne; [done|]. intros Heq. by apply (Hnot s).
           ++ intros Heq. by apply (Hfresh l).
      * by rewrite (log_action_gate _ _ _ _ _ _ Hs He).
    + by rewrite (log_action_not_found _ _ _ _ _ Hs).
  - by rewrite llm_summary_reads_only.
  - destruct (SESSIONS w !! sid) as [s|] eqn:Hs.
    + rewrite (reset_ok _ now _ _ Hs). cbn [world_after]. simpl. split.
      * intros sid' Hne. by rewrite lookup_insert_ne.
      * intros l Hl _. rewrite lookup_insert_ne; [done|]. intros Heq.
        by apply (Hfresh l).
    + by rewrite (reset_not_found _ _ _ Hs).
Qed.

(** X1. In any reachable world a request leaves every session other than
    the one it addresses exactly as it was: the session dictionary, the
    impact it refers to and the snapshots of its action records. *)
Theorem requests_are_isolated hash_user reqs req sid' :
  sid' ≠ target req →
  SESSIONS (step hash_user req (exec hash_user reqs empty_world)) !! sid'
    = SESSIONS (exec hash_user reqs empty_world) !! sid' ∧
  session_impact (step hash_user req (exec hash_user reqs empty_world)) sid'
    = session_impact (exec hash_user reqs empty_world) sid' ∧
  (∀ s r, SESSIONS (exec hash_user reqs empty_world) !! sid' = Some s →
          r ∈ actions s →
          heap (step hash_user req (exec hash_user reqs empty_world)) !! impact_after r
            = heap (exec hash_user reqs empty_world) !! impact_after r).
Proof.
  intros Hne. set (w := exec hash_user reqs empty_world).
  assert (Hw : consistent w) by apply exec_consistent, empty_world_consistent.
  assert (Hsep : separate w).
  { apply exec_separate; [apply empty_world_consistent|apply empty_world_separate]. }
  destruct (step_frame hash_user req w Hw) as [Hstore Hheap].
  split; [by apply Hstore|]. split.
  - unfold session_impact. rewrite (Hstore _ Hne).
    destruct (SESSIONS w !! sid') as [s'|] eqn:Hs'; [|done]. simpl.
    apply Hheap.
    + apply (live_allocated w Hw). by exists sid', s'.
    + intros s Hs Heq. apply Hne. by apply (Hsep _ _ _ _ Hs' Hs).
  - intros s r Hs Hr. apply Hheap.
    + by apply (records_allocated w Hw sid' s).
    + intros s0 Hs0 Heq. apply (records_not_live w Hw sid' s r Hs Hr).
      by exists (target req), s0.
Qed.

(** ** Creating a session *)

(** X2. [create_session] never fails. The new session holds the digest of
    the user identifier, status [created], a closed gate, empty histories and
    a baseline dictionary allocated by the call, which nothing referred to
    before; every other session and every existing dictionary is untouched.
    A session already stored under the identifier is replaced. *)
Theorem create_session_effect hash_user sid now p w :
  ∃ w' s,
    create_session hash_user sid now p w =
      Ok {| out_session_id := sid; out_status := "created" |} w' ∧
    SESSIONS w' !! sid = Some s ∧
    user_id s = hash_user (in_user_id p) ∧
    persona s = in_persona p ∧ scenario_id s = in_scenario_id p ∧
    status s = "created" ∧ ethics_declared s = false ∧
    actions s = [] ∧ reflections s = [] ∧
    heap w !! impact s = None ∧
    heap w' !! impact s = Some (baseline_dict now) ∧
    (∀ sid', sid' ≠ sid → SESSIONS w' !! sid' = SESSIONS w !! sid') ∧
    (∀ l, l ≠ impact s → heap w' !! l = heap w !! l) ∧
    (∀ t1 t2 a, ∃ e, log_action sid t1 t2 a w' = Raise e w' ∧ status_code e = 403).
Proof.
  eexists _, _. split; [apply create_session_ok|]. simpl.
  split; [apply lookup_insert_eq|]. simpl.
  do 7 (split; [reflexivity|]).
  split.
  { apply eq_None_not_Some. apply (fresh_not_allocated w). }
  split; [apply lookup_insert_eq|].
  split. { intros sid' Hne. by rewrite lookup_insert_ne. }
  split. { intros l Hne. by rewrite lookup_insert_ne. }
  intros t1 t2 a. eexists.
  split; [eapply log_action_gate; [apply lookup_insert_eq|done]|reflexivity].
Qed.

(** ** Failures *)

(** X3. On an identifier that is not in the store every route but
    [create_session] raises 404 and leaves the world as it is; for
    [declare_ethics] and [log_action] the lookup comes first, so the answer is
    404 and not 400 or 403 whatever the payload. *)
Theorem unknown_session_raises_404 sid w :
  SESSIONS w !! sid = None →
  (∀ p, declare_ethics sid p w = Raise not_found w) ∧
  (∀ t1 t2 p, log_action sid t1 t2 p w = Raise not_found w) ∧
  (∀ now, llm_summary sid now w = Raise not_found w) ∧
  (∀ now, reset sid now w = Raise not_found w) ∧
  status_code not_found = 404.
Proof.
  intros Hs. split; [|split; [|split; [|split]]].
  - intros p. by apply declare_ethics_not_found.
  - intros t1 t2 p. by apply log_action_not_found.
  - intros now. by apply llm_summary_not_found.
  - intros now. by apply reset_not_found.
  - reflexivity.
Qed.

Lemma step_raise_unchanged hash_user req w e :
  outcome hash_user req w = Failed e → step hash_user req w = w.
Proof.
  destruct req as [sid now p|sid p|sid t1 t2 p|sid now|sid now]; unfold outcome, step.
  - by rewrite create_session_ok.
  - destruct (SESSIONS w !! sid) as [s|] eqn:Hs.
    + destruct (acknowledge_no_harm p && acknowledge_no_real_data p) eqn:Hp.
      * by rewrite (declare_ethics_ok _ _ _ _ Hs Hp).
      * by rewrite (declare_ethics_refused _ _ _ _ Hs Hp).
    + by rewrite (declare_ethics_not_found _ _ _ Hs).
  - destruct (SESSIONS w !! sid) as [s|] eqn:Hs.
    + destruct (ethics_declared s) eqn:He.
      * destruct (heap w !! impact s) as [i|] eqn:Hi.
        -- by rewrite (log_action_ok _ t1 t2 p _ _ _ Hs He Hi).
        -- by rewrite (log_action_wrong _ _ _ _ _ _ Hs He Hi).
      * by rewrite (log_action_gate _ _ _ _ _ _ Hs He).
    + by rewrite (log_action_not_found _ _ _ _ _ Hs).
  - intros _. apply llm_summary_reads_only.
  - destruct (SESSIONS w !! sid) as [s|] eqn:Hs.
    + by rewrite (reset_ok _ now _ _ Hs).
    + by rewrite (reset_not_found _ _ _ Hs).
Qed.

(** X4. In any reachable world every request either answers or raises one
    of three errors, and a request that raises changes nothing: 404 exactly
    when the addressed session is unknown, 400 only from [declare_ethics] on a
    known session without both core acknowledgments, 403 only from
    [log_action] on a known session whose gate is closed. [create_session]
    always answers. *)
Theorem failures_are_404_400_403 hash_user reqs req :
  outcome hash_user req (exec hash_user reqs empty_world) ≠ Undefined ∧
  (∀ e, outcome hash_user req (exec hash_user reqs empty_world) = Failed e →
     step hash_user req (exec hash_user reqs empty_world)
       = exec hash_user reqs empty_world ∧
     ((status_code e = 404 ∧
       SESSIONS (exec hash_user reqs empty_world) !! target req = None) ∨
      (status_code e = 400 ∧
       ∃ sid p s, req = ReqDeclareEthics sid p ∧
                  SESSIONS (exec hash_user reqs empty_world) !! sid = Some s ∧
                  acknowledge_no_harm p && acknowledge_no_real_data p = false) ∨
      (status_code e = 403 ∧
       ∃ sid t1 t2 p s, req = ReqLogAction sid t1 t2 p ∧
                        SESSIONS (exec hash_user reqs empty_world) !! sid = Some s ∧
                        ethics_declared s = false))) ∧
  (∀ sid now p, req = ReqCreateSession sid now p →
     outcome hash_user req (exec hash_user reqs empty_world) = Answered).
Proof.
  set (w := exec hash_user reqs empty_world).
  assert (Hw : consistent w) by apply exec_consistent, empty_world_consistent.
  split; [|split].
  - destruct req as [sid now p|sid p|sid t1 t2 p|sid now|sid now]; unfold outcome.
    + by rewrite create_session_ok.
    + destruct (SESSIONS w !! sid) as [s|] eqn:Hs.
      * destruct (acknowledge_no_harm p && acknowledge_no_real_data p) eqn:Hp.
        -- by rewrite (declare_ethics_ok _ _ _ _ Hs Hp).
        -- by rewrite (declare_ethics_refused _ _ _ _ Hs Hp).
      * by rewrite (declare_ethics_not_found _ _ _ Hs).
    + pose proof (log_action_defined sid t1 t2 p w Hw) as Hd.
      by destruct (log_action sid t1 t2 p w).
    + pose proof (llm_summary_defined sid now w Hw) as Hd.
      by destruct (llm_summary sid now w).
    + destruct (SESSIONS w !! sid) as [s|] eqn:Hs.
      * by rewrite (reset_ok _ now _ _ Hs).
      * by rewrite (reset_not_found _ _ _ Hs).
  - intros e He. split; [by apply (step_raise_unchanged _ _ _ e)|].
    destruct req as [sid now p|sid p|sid t1 t2 p|sid now|sid now];
      unfold outcome in He; unfold target.
    + by rewrite create_session_ok in He.
    + destruct (SESSIONS w !! sid) as [s|] eqn:Hs.
      * destruct (acknowledge_no_harm p && acknowledge_no_real_data p) eqn:Hp.
        -- by rewrite (declare_ethics_ok _ _ _ _ Hs Hp) in He.
        -- rewrite (declare_ethics_refused _ _ _ _ Hs Hp) in He.
           injection He as <-. right. left. split; [done|]. by exists sid, p, s.
      * rewrite (declare_ethics_not_found _ _ _ Hs) in He.
        injection He as <-. by left.
    + destruct (SESSIONS w !! sid) as [s|] eqn:Hs.
      * destruct (ethics_declared s) eqn:Hg.
        -- destruct (live_allocated w Hw (impact s)) as [i Hi]; [by exists sid, s|].
           by rewrite (log_action_ok _ t1 t2 p _ _ _ Hs Hg Hi) in He.
        -- rewrite (log_action_gate _ _ _ _ _ _ Hs Hg) in He.
           injection He as <-. right. right. split; [done|].
           by exists sid, t1, t2, p, s.
      * rewrite (log_action_not_found _ _ _ _ _ Hs) in He.
        injection He as <-. by left.
    + destruct (SESSIONS w !! sid) as [s|] eqn:Hs.
      * destruct (live_allocated w Hw (impact s)) as [i Hi]; [by exists sid, s|].
        unfold llm_summary, SESSIONS_get, mbind, M_bind in He. rewrite Hs in He.
        by rewrite (fake_llm_summary_ok _ _ _ _ Hi) in He.
      * rewrite (llm_summary_not_found _ _ _ Hs) in He.
        injection He as <-. by left.
    + destruct (SESSIONS w !! sid) as [s|] eqn:Hs.
      * by rewrite (reset_ok _ now _ _ Hs) in He.
      * rewrite (reset_not_found _ _ _ Hs) in He.
        injection He as <-. by left.
  - intros sid now p ->. unfold outcome. by rewrite create_session_ok.
Qed.

(** ** Reset and the gate *)

(** X5. [reset] puts the status back to [created] but does not close the
    ethics gate: on a session that had declared ethics, a [log_action] right
    after the reset is accepted, applies its deltas to the new baseline and
    starts a new history of one record, while the status stays [created]. On
    a session that had not declared, the action is refused with 403. *)
Theorem reset_keeps_gate_open sid now t1 t2 p w s :
  SESSIONS w !! sid = Some s →
  ∃ w1,
    reset sid now w = Ok (true, "reset") w1 ∧
    (ethics_declared s = true →
       ∃ body w2 s2 r,
         log_action sid t1 t2 p w1 = Ok (true, body) w2 ∧
         SESSIONS w2 !! sid = Some s2 ∧
         status s2 = "created" ∧ ethics_declared s2 = true ∧
         actions s2 = [r] ∧ logged_type r = lower (action_type p) ∧
         heap w2 !! impact s2 = Some body ∧
         updated_at body = t1 ∧
         (lower (action_type p) = "exploit" →
            trust body = 80 ∧ privacy_exposure body = 15 ∧ community_harm body = 10) ∧
         (lower (action_type p) ≠ "exploit" →
            trust body = 100 ∧ privacy_exposure body = 0 ∧ community_harm body = 0)) ∧
    (ethics_declared s = false →
       ∃ e, log_action sid t1 t2 p w1 = Raise e w1 ∧ status_code e = 403).
Proof.
  intros Hs. eexists. split; [apply (reset_ok _ _ _ _ Hs)|]. split.
  - intros He. eexists _, _, _, _.
    split.
    { eapply log_action_ok; [apply lookup_insert_eq|exact He|apply lookup_insert_eq]. }
    simpl. split; [apply lookup_insert_eq|]. simpl.
    split; [reflexivity|]. split; [exact He|].
    do 2 (split; [reflexivity|]).
    split.
    { rewrite lookup_insert_ne; [apply lookup_insert_eq|].
      rewrite dom_insert_L.
      pose proof (is_fresh ({[fresh (dom (heap w))]} ∪ dom (heap w))) as Hf.
      intros Heq. apply Hf. rewrite Heq.
      apply elem_of_union_l. by apply elem_of_singleton. }
    split; [reflexivity|]. split.
    + intros Ha. destruct (deltas_of_exploit _ Ha) as (-> & -> & ->). done.
    + intros Ha. destruct (decide (lower (action_type p) = "ethical")) as [Hl|Hl].
      * destruct (deltas_of_ethical _ Hl) as (-> & -> & ->). done.
      * destruct (deltas_of_other _ Hl Ha) as (-> & -> & ->). done.
  - intros He. eexists.
    split; [eapply log_action_gate; [apply lookup_insert_eq|exact He]|reflexivity].
Qed.

(** ** The clamp *)

(** X6. [clamp] saturates: with [lo <= hi] the result lies in [lo, hi], is
    the argument itself exactly when that already lies there, and is [lo]
    below and [hi] above; clamping twice is clamping once and the function is
    monotone. With the bounds the wrong way round ([hi < lo]) the result is
    [lo] for every argument. *)
Theorem clamp_saturates v lo hi :
  (lo ≤ hi →
     lo ≤ clamp v lo hi ≤ hi ∧
     (clamp v lo hi = v ↔ lo ≤ v ≤ hi) ∧
     (v < lo → clamp v lo hi = lo) ∧
     (hi < v → clamp v lo hi = hi)) ∧
  (hi < lo → clamp v lo hi = lo) ∧
  clamp (clamp v lo hi) lo hi = clamp v lo hi ∧
  (∀ v', v ≤ v' → clamp v lo hi ≤ clamp v' lo hi).
Proof.
  unfold clamp. repeat split; intros; lia.
Qed.

(** ** Risk thresholds *)

Lemma risk_level_High i : risk_level i = "High" ↔ 300 ≤ risk_sum i.
Proof.
  unfold risk_level. fold (risk_sum i). unfold clamp.
  pose proof (Z.div_mod (risk_sum i) 5 ltac:(lia)) as Hdm.
  pose proof (Z.mod_pos_bound (risk_sum i) 5 ltac:(lia)) as Hm.
  destruct (Z.leb_spec 60 (Z.max 0 (Z.min 100 (risk_sum i / 5)))) as [H|H].
  - split; [lia|done].
  - destruct (Z.leb_spec 30 (Z.max 0 (Z.min 100 (risk_sum i / 5)))) as [H'|H'];
      (split; [discriminate|lia]).
Qed.

Lemma risk_level_Low i : risk_level i = "Low" ↔ risk_sum i < 150.
Proof.
  unfold risk_level. fold (risk_sum i). unfold clamp.
  pose proof (Z.div_mod (risk_sum i) 5 ltac:(lia)) as Hdm.
  pose proof (Z.mod_pos_bound (risk_sum i) 5 ltac:(lia)) as Hm.
  destruct (Z.leb_spec 60 (Z.max 0 (Z.min 100 (risk_sum i / 5)))) as [H|H].
  - split; [discriminate|lia].
  - destruct (Z.leb_spec 30 (Z.max 0 (Z.min 100 (risk_sum i / 5)))) as [H'|H'].
    + split; [discriminate|lia].
    + split; [lia|done].
Qed.

Lemma risk_level_Medium i : risk_level i = "Medium" ↔ 150 ≤ risk_sum i < 300.
Proof.
  unfold risk_level. fold (risk_sum i). unfold clamp.
  pose proof (Z.div_mod (risk_sum i) 5 ltac:(lia)) as Hdm.
  pose proof (Z.mod_pos_bound (risk_sum i) 5 ltac:(lia)) as Hm.
  destruct (Z.leb_spec 60 (Z.max 0 (Z.min 100 (risk_sum i / 5)))) as [H|H].
  - split; [discriminate|lia].
  - destruct (Z.leb_spec 30 (Z.max 0 (Z.min 100 (risk_sum i / 5)))) as [H'|H'].
    + split; [lia|done].
    + split; [discriminate|lia].
Qed.

(** X7. The risk level is decided by the weighted sum
    [2*privacy_exposure + 2*community_harm + (100 - trust)] alone, without
    rounding effects: High from 300, Medium from 150 and Low below, for every
    snapshot. On a snapshot within [0,100] the quotient by 5 already lies in
    [0,100], so the clamp of [risk_level] changes nothing there. *)
Theorem risk_level_thresholds i :
  (risk_level i = "High" ↔ 300 ≤ risk_sum i) ∧
  (risk_level i = "Medium" ↔ 150 ≤ risk_sum i < 300) ∧
  (risk_level i = "Low" ↔ risk_sum i < 150) ∧
  (scores_in_range i →
     0 ≤ risk_sum i / 5 ≤ 100 ∧ clamp (risk_sum i / 5) 0 100 = risk_sum i / 5).
Proof.
  split; [apply risk_level_High|]. split; [apply risk_level_Medium|].
  split; [apply risk_level_Low|].
  intros (Hp & Ht & _ & _ & Hc). unfold in_range in *.
  assert (0 ≤ risk_sum i ≤ 500) as Hn by (unfold risk_sum; lia).
  pose proof (Z.div_mod (risk_sum i) 5 ltac:(lia)) as Hdm.
  pose proof (Z.mod_pos_bound (risk_sum i) 5 ltac:(lia)) as Hm.
  assert (0 ≤ risk_sum i / 5 ≤ 100) as Hq by lia.
  split; [done|]. unfold clamp. lia.
Qed.

(** ** Actions and the risk level *)

Lemma apply_deltas_ethical a t i :
  lower a = "ethical" →
  apply_deltas (deltas_of a) t i =
    {| privacy_exposure := clamp100 (privacy_exposure i - 5);
       trust := clamp100 (trust i + 10);
       regulatory_scrutiny := regulatory_scrutiny i;
       business_impact := business_impact i;
       community_harm := clamp100 (community_harm i - 5);
       updated_at := t |}.
Proof.
  intros Ha. unfold apply_deltas.
  by destruct (deltas_of_ethical _ Ha) as (-> & -> & ->).
Qed.

Lemma apply_deltas_other a t i :
  lower a ≠ "ethical" → lower a ≠ "exploit" →
  apply_deltas (deltas_of a) t i =
    {| privacy_exposure := clamp100 (privacy_exposure i);
       trust := clamp100 (trust i);
       regulatory_scrutiny := regulatory_scrutiny i;
       business_impact := business_impact i;
       community_harm := clamp100 (community_harm i);
       updated_at := t |}.
Proof.
  intros H1 H2. unfold apply_deltas.
  destruct (deltas_of_other _ H1 H2) as (-> & -> & ->).
  simpl. by rewrite !Z.add_0_r.
Qed.

(** X8. On a snapshot within [0,100] an "exploit" never lowers the risk
    level and never raises trust, an "ethical" action never raises the risk
    level and never lowers trust, and any other action type leaves the risk
    level as it is. *)
Theorem actions_move_risk_one_way sid t1 t2 p w s i :
  SESSIONS w !! sid = Some s →
  ethics_declared s = true →
  heap w !! impact s = Some i →
  scores_in_range i →
  ∃ body w',
    log_action sid t1 t2 p w = Ok (true, body) w' ∧
    (lower (action_type p) = "exploit" →
       risk_sum i ≤ risk_sum body ∧ trust body ≤ trust i ∧
       (risk_level i = "High" → risk_level body = "High") ∧
       (risk_level body = "Low" → risk_level i = "Low")) ∧
    (lower (action_type p) = "ethical" →
       risk_sum body ≤ risk_sum i ∧ trust i ≤ trust body ∧
       (risk_level i = "Low" → risk_level body = "Low") ∧
       (risk_level body = "High" → risk_level i = "High")) ∧
    (lower (action_type p) ≠ "exploit" → lower (action_type p) ≠ "ethical" →
       risk_level body = risk_level i ∧ trust body = trust i).
Proof.
  intros Hs He Hi (Hp & Ht & _ & _ & Hc). unfold in_range in *.
  eexists _, _. split; [apply (log_action_ok _ _ _ _ _ _ _ Hs He Hi)|].
  split; [|split].
  - intros Ha. rewrite (apply_deltas_exploit _ _ _ Ha).
    assert (Hsum : risk_sum i ≤
                   risk_sum {| privacy_exposure := clamp100 (privacy_exposure i + 15);
                               trust := clamp100 (trust i - 20);
                               regulatory_scrutiny := regulatory_scrutiny i;
                               business_impact := business_impact i;
                               community_harm := clamp100 (community_harm i + 10);
                               updated_at := t1 |}).
    { unfold risk_sum, clamp100, clamp. simpl. lia. }
    split; [done|]. split; [unfold clamp100, clamp; simpl; lia|].
    rewrite !risk_level_High, !risk_level_Low. lia.
  - intros Ha. rewrite (apply_deltas_ethical _ _ _ Ha).
    assert (Hsum : risk_sum {| privacy_exposure := clamp100 (privacy_exposure i - 5);
                               trust := clamp100 (trust i + 10);
                               regulatory_scrutiny := regulatory_scrutiny i;
                               business_impact := business_impact i;
                               community_harm := clamp100 (community_harm i - 5);
                               updated_at := t1 |}
                   ≤ risk_sum i).
    { unfold risk_sum, clamp100, clamp. simpl. lia. }
    split; [done|]. split; [unfold clamp100, clamp; simpl; lia|].
    rewrite !risk_level_High, !risk_level_Low. lia.
  - intros H1 H2. rewrite (apply_deltas_other _ _ _ H2 H1).
    unfold risk_level. simpl. by rewrite !clamp100_id.
Qed.

(** ** What [log_action] reads of its payload *)

(** X9. [log_action] reads of its payload only [details] and the lowercase
    form of [action_type]: two payloads with the same details whose action
    types have the same lowercase form, whatever their [intent] and
    [expected_impact], give the same result in every world. *)
Theorem log_action_ignores_case sid t1 t2 p p' w :
  lower (action_type p) = lower (action_type p') →
  details p = details p' →
  log_action sid t1 t2 p w = log_action sid t1 t2 p' w.
Proof.
  intros Ha Hd. unfold log_action. by rewrite Ha, Hd.
Qed.

(** ** Logging several actions *)

Lemma exec_step_log hash_user sid c w s :
  consistent w →
  SESSIONS w !! sid = Some s → ethics_declared s = true →
  ∃ l,
    SESSIONS (step hash_user (ReqLogAction sid c.1.1 c.1.2 c.2) w) !! sid
      = Some (actions_append (logged_record c.1.2 c.2 l) s).
Proof.
  intros Hw Hs He.
  destruct (live_allocated w Hw (impact s)) as [i Hi]; [by exists sid, s|].
  unfold step. rewrite (log_action_ok _ _ _ _ _ _ _ Hs He Hi). cbn [world_after].
  eexists. apply lookup_insert_eq.
Qed.

Lemma log_requests_extend hash_user sid calls w s :
  consistent w →
  SESSIONS w !! sid = Some s → ethics_declared s = true →
  ∃ s',
    SESSIONS (exec hash_user (log_requests sid calls) w) !! sid = Some s' ∧
    logged_type <$> actions s'
      = ((logged_type <$> actions s) ++ ((λ c, lower (action_type c.2)) <$> calls))%list ∧
    ts <$> actions s' = ((ts <$> actions s) ++ ((λ c, c.1.2) <$> calls))%list ∧
    logged_details <$> actions s'
      = ((logged_details <$> actions s) ++ ((λ c, details c.2) <$> calls))%list ∧
    impact s' = impact s ∧ status s' = status s ∧ ethics_declared s' = true.
Proof.
  revert w s. induction calls as [|c calls IH]; intros w s Hw Hs He.
  - exists s. simpl. by rewrite !app_nil_r.
  - destruct (exec_step_log hash_user sid c w s Hw Hs He) as [l Hl].
    assert (Hw' : consistent (step hash_user (ReqLogAction sid c.1.1 c.1.2 c.2) w)).
    { apply (transition_consistent w); [done|]. by apply step_transition. }
    destruct (IH _ _ Hw' Hl He) as (s' & Hs' & Hlab & Hts & Hdet & Himp & Hst & Hg).
    exists s'. split; [exact Hs'|].
    rewrite Hlab, Hts, Hdet, Himp, Hst. simpl.
    rewrite !fmap_app, <- !app_assoc. done.
Qed.

(** X10. In any reachable world, logging a run of actions on a session that
    passed the gate accepts every one of them and extends the history by
    exactly their records, in call order: the labels are the lowercased
    action types, the timestamps and details those of the calls. The
    session's impact reference, status and gate are as before. *)
Theorem logging_appends_in_order hash_user reqs sid calls s :
  SESSIONS (exec hash_user reqs empty_world) !! sid = Some s →
  ethics_declared s = true →
  ∃ s',
    SESSIONS (exec hash_user ((reqs ++ log_requests sid calls)%list) empty_world) !! sid
      = Some s' ∧
    logged_type <$> actions s'
      = ((logged_type <$> actions s) ++ ((λ c, lower (action_type c.2)) <$> calls))%list ∧
    ts <$> actions s' = ((ts <$> actions s) ++ ((λ c, c.1.2) <$> calls))%list ∧
    logged_details <$> actions s'
      = ((logged_details <$> actions s) ++ ((λ c, details c.2) <$> calls))%list ∧
    length (actions s') = (length (actions s) + length calls)%nat ∧
    impact s' = impact s ∧ status s' = status s ∧ ethics_declared s' = true.
Proof.
  intros Hs He. rewrite exec_app.
  destruct (log_requests_extend hash_user sid calls _ s
              (exec_consistent hash_user reqs _ empty_world_consistent) Hs He)
    as (s' & Hs' & Hlab & Hts & Hdet & Himp & Hst & Hg).
  exists s'. split; [exact Hs'|]. do 3 (split; [done|]).
  split; [|done].
  apply (f_equal length) in Hts. by rewrite length_app, !length_fmap in Hts.
Qed.

(** ** The history accounts for the state *)

Lemma scores_apply_deltas d t t' i j :
  scores i = scores j → scores (apply_deltas d t i) = scores (apply_deltas d t' j).
Proof.
  unfold scores, apply_deltas. simpl. intros Heq.
  injection Heq as -> -> -> -> ->. reflexivity.
Qed.

Lemma replay_snoc labels a :
  replay (labels ++ [a]) = apply_deltas (table_deltas a) "" (replay labels).
Proof. unfold replay. by rewrite foldl_app. Qed.

Lemma explained_other hash_user req w sid0 s0 :
  consistent w → separate w → explained w →
  sid0 ≠ target req →
  SESSIONS (step hash_user req w) !! sid0 = Some s0 →
  (∃ i, heap (step hash_user req w) !! impact s0 = Some i ∧
        scores i = scores (replay (logged_type <$> actions s0))) ∧
  (∀ k r, actions s0 !! k = Some r →
     ∃ i, heap (step hash_user req w) !! impact_after r = Some i ∧
          scores i = scores (replay (take (S k) (logged_type <$> actions s0)))) ∧
  (∀ r, last (actions s0) = Some r →
     heap (step hash_user req w) !! impact_after r
       = heap (step hash_user req w) !! impact s0).
Proof.
  intros Hw Hsep Hexp Hne Hs0.
  destruct (step_frame hash_user req w Hw) as [Hstore Hheap].
  rewrite (Hstore _ Hne) in Hs0.
  destruct (Hexp _ _ Hs0) as (Hlive & Hrec & Hlast).
  assert (Himp : heap (step hash_user req w) !! impact s0 = heap w !! impact s0).
  { apply Hheap.
    - apply (live_allocated w Hw). by exists sid0, s0.
    - intros s Hs Heq. apply Hne. by apply (Hsep _ _ _ _ Hs0 Hs). }
  assert (Hsnap : ∀ r, r ∈ actions s0 →
            heap (step hash_user req w) !! impact_after r = heap w !! impact_after r).
  { intros r Hr. apply Hheap.
    - by apply (records_allocated w Hw sid0 s0).
    - intros s Hs Heq. apply (records_not_live w Hw sid0 s0 r Hs0 Hr).
      by exists (target req), s. }
  split; [by rewrite Himp|]. split.
  - intros k r Hk. rewrite Hsnap; [by apply Hrec|].
    apply list_elem_of_lookup. by exists k.
  - intros r Hr. rewrite Himp, Hsnap; [by apply Hlast|].
    apply last_Some in Hr as [l' ->]. apply elem_of_app. right.
    by apply list_elem_of_singleton.
Qed.

Lemma explained_fresh w sid s now :
  consistent w → separate w → explained w →
  impact s = fresh (dom (heap w)) → actions s = [] →
  explained {| SESSIONS := <[sid := s]> (SESSIONS w);
               heap := <[fresh (dom (heap w)) := baseline_dict now]> (heap w) |}.
Proof.
  intros Hw Hsep Hexp Hi Ha sid0 s0 Hs0. simpl in Hs0.
  apply lookup_insert_Some in Hs0 as [[<- <-]|[Hne Hs0]].
  - simpl. rewrite Hi, Ha, lookup_insert_eq. split; [by eexists|].
    split; [by intros k r Hk|by intros r Hr].
  - destruct (Hexp _ _ Hs0) as (Hlive & Hrec & Hlast). simpl.
    assert (Hold : ∀ l, allocated w l →
              <[fresh (dom (heap w)) := baseline_dict now]> (heap w) !! l = heap w !! l).
    { intros l Hl. rewrite lookup_insert_ne; [done|].
      intros Heq. apply (fresh_not_allocated w). by rewrite Heq. }
    assert (Hlv : allocated w (impact s0)).
    { apply (live_allocated w Hw). by exists sid0, s0. }
    split; [by rewrite Hold|]. split.
    + intros k r Hk. rewrite Hold; [by apply Hrec|].
      apply (records_allocated w Hw sid0 s0); [done|].
      apply list_elem_of_lookup. by exists k.
    + intros r Hr. rewrite !Hold; [by apply Hlast|done|].
      apply (records_allocated w Hw sid0 s0); [done|].
      apply last_Some in Hr as [l' ->]. apply elem_of_app. right.
      by apply list_elem_of_singleton.
Qed.

Lemma step_explained hash_user req w :
  consistent w → separate w → explained w → explained (step hash_user req w).
Proof.
  intros Hw Hsep Hexp sid0 s0 Hs0.
  destruct (decide (sid0 = target req)) as [->|Hne];
    [|by apply (explained_other hash_user req w sid0 s0)].
  destruct req as [sid now p|sid p|sid t1 t2 p|sid now|sid now];
    unfold step, target in *.
  - rewrite create_session_ok in *. cbn [world_after] in *.
    by eapply (explained_fresh w sid _ now Hw Hsep Hexp).
  - destruct (SESSIONS w !! sid) as [s|] eqn:Hs.
    + destruct (acknowledge_no_harm p && acknowledge_no_real_data p) eqn:Hp.
      * rewrite (declare_ethics_ok _ _ _ _ Hs Hp) in *. cbn [world_after] in *.
        simpl in Hs0. rewrite lookup_insert_eq in Hs0. injection Hs0 as <-.
        simpl. apply (Hexp _ _ Hs).
      * rewrite (declare_ethics_refused _ _ _ _ Hs Hp) in *. cbn [world_after] in *. by apply (Hexp sid s0).
    + rewrite (declare_ethics_not_found _ _ _ Hs) in *. cbn [world_after] in *. by apply (Hexp sid s0).
  - destruct (SESSIONS w !! sid) as [s|] eqn:Hs.
    + destruct (ethics_declared s) eqn:He.
      * destruct (Hexp _ _ Hs) as ((i & Hi & Hsc) & Hrec & Hlast).
        rewrite (log_action_ok _ t1 t2 p _ _ _ Hs He Hi) in *. cbn [world_after] in *.
        simpl in Hs0. rewrite lookup_insert_eq in Hs0. injection Hs0 as <-.
        set (body := apply_deltas (deltas_of (action_type p)) t1 i).
        set (l' := fresh (dom (heap w))).
        assert (Hl' : l' ≠ impact s).
        { intros Heq. apply (fresh_not_allocated w). fold l'. rewrite Heq. by exists i. }
        assert (Hbody : scores body
                        = scores (replay ((logged_type <$> actions s)
                                          ++ [lower (action_type p)]))).
        { rewrite replay_snoc. by apply scores_apply_deltas. }
        simpl. rewrite fmap_app. simpl.
        assert (Hlive' : <[l' := body]> (<[impact s := body]> (heap w)) !! impact s
                         = Some body).
        { rewrite lookup_insert_ne by done. apply lookup_insert_eq. }
        split; [by exists body|]. split.
        -- intros k r Hk. apply lookup_app_Some in Hk as [Hk|[Hlen Hk]].
           ++ destruct (Hrec _ _ Hk) as (i1 & Hi1 & Hs1).
              assert (Hr : r ∈ actions s) by (apply list_elem_of_lookup; by exists k).
              exists i1. split.
              ** rewrite lookup_insert_ne.
                 { rewrite lookup_insert_ne; [done|]. intros Heq.
                   apply (records_not_live w Hw sid s r Hs Hr). by exists sid, s. }
                 intros Heq. apply (fresh_not_allocated w). fold l'. rewrite Heq.
                 by exists i1.
              ** rewrite take_app_le; [done|]. rewrite length_fmap.
                 apply lookup_lt_Some in Hk. lia.
           ++ apply list_lookup_singleton_Some in Hk as [Hk0 <-]. simpl.
              exists body. split; [apply lookup_insert_eq|].
              rewrite take_ge; [done|]. rewrite length_app, length_fmap. simpl. lia.
        -- intros r Hr. rewrite last_snoc in Hr. injection Hr as <-. simpl.
           by rewrite lookup_insert_eq.
      * rewrite (log_action_gate _ _ _ _ _ _ Hs He) in *. cbn [world_after] in *. by apply (Hexp sid s0).
    + rewrite (log_action_not_found _ _ _ _ _ Hs) in *. cbn [world_after] in *. by apply (Hexp sid s0).
  - rewrite llm_summary_reads_only in *. cbn [world_after] in *. by apply (Hexp sid s0).
  - destruct (SESSIONS w !! sid) as [s|] eqn:Hs.
    + rewrite (reset_ok _ now _ _ Hs) in *. cbn [world_after] in *.
      by eapply (explained_fresh w sid _ now Hw Hsep Hexp).
    + rewrite (reset_not_found _ _ _ Hs) in *. cbn [world_after] in *. by apply (Hexp sid s0).
Qed.

Lemma exec_explained hash_user reqs w :
  consistent w → separate w → explained w → explained (exec hash_user reqs w).
Proof.
  revert w. induction reqs as [|req reqs IH]; intros w Hw Hsep Hexp; [done|].
  simpl. pose proof (step_transition hash_user req w Hw) as Ht. apply IH.
  - by apply (transition_consistent w).
  - by apply (transition_separate w).
  - by apply step_explained.
Qed.

Lemma reachable_explained hash_user reqs :
  explained (exec hash_user reqs empty_world).
Proof.
  apply exec_explained.
  - apply empty_world_consistent.
  - apply empty_world_separate.
  - by intros sid s Hs.
Qed.

(** X11. In any reachable world the recorded history accounts for the
    state of every session: its live scores are what replaying the recorded
    labels from the baseline gives, the snapshot kept in the record at index
    [k] is the replay of the first [k+1] labels, the snapshot of the latest
    record is the content of the live dictionary, timestamp included, and a
    session with an empty history is at the baseline scores. *)
Theorem history_explains_state hash_user reqs sid s :
  SESSIONS (exec hash_user reqs empty_world) !! sid = Some s →
  (∃ i, heap (exec hash_user reqs empty_world) !! impact s = Some i ∧
        scores i = scores (replay (logged_type <$> actions s)) ∧
        (actions s = [] →
           privacy_exposure i = 0 ∧ trust i = 100 ∧ community_harm i = 0)) ∧
  (∀ k r, actions s !! k = Some r →
     ∃ i, heap (exec hash_user reqs empty_world) !! impact_after r = Some i ∧
          scores i = scores (replay (take (S k) (logged_type <$> actions s)))) ∧
  (∀ r, last (actions s) = Some r →
     heap (exec hash_user reqs empty_world) !! impact_after r
       = heap (exec hash_user reqs empty_world) !! impact s).
Proof.
  intros Hs.
  destruct (reachable_explained hash_user reqs _ _ Hs) as ((i & Hi & Hsc) & Hrec & Hlast).
  split; [|by split].
  exists i. split; [done|]. split; [done|].
  intros Ha. rewrite Ha in Hsc. unfold scores in Hsc. simpl in Hsc.
  by injection Hsc as -> -> _ _ ->.
Qed.

(** ** Arithmetic of the reachable scores *)

Lemma apply_table_exploit t i :
  apply_deltas (table_deltas "exploit") t i =
    {| privacy_exposure := clamp100 (privacy_exposure i + 15);
       trust := clamp100 (trust i - 20);
       regulatory_scrutiny := regulatory_scrutiny i;
       business_impact := business_impact i;
       community_harm := clamp100 (community_harm i + 10);
       updated_at := t |}.
Proof. reflexivity. Qed.

Lemma apply_table_ethical t i :
  apply_deltas (table_deltas "ethical") t i =
    {| privacy_exposure := clamp100 (privacy_exposure i - 5);
       trust := clamp100 (trust i + 10);
       regulatory_scrutiny := regulatory_scrutiny i;
       business_impact := business_impact i;
       community_harm := clamp100 (community_harm i - 5);
       updated_at := t |}.
Proof. reflexivity. Qed.

Lemma apply_table_other a t i :
  a ≠ "ethical" → a ≠ "exploit" →
  apply_deltas (table_deltas a) t i =
    {| privacy_exposure := clamp100 (privacy_exposure i);
       trust := clamp100 (trust i);
       regulatory_scrutiny := regulatory_scrutiny i;
       business_impact := business_impact i;
       community_harm := clamp100 (community_harm i);
       updated_at := t |}.
Proof.
  intros H1 H2.
  assert (Hd : table_deltas a = {[ "trust" := 0 ]}).
  { unfold table_deltas, dict_get, SCENARIO_IMPACTS.
    rewrite lookup_insert_ne by done. by rewrite lookup_singleton_ne. }
  unfold apply_deltas. rewrite Hd.
  assert (dict_get ({[ "trust" := 0 ]} : gmap string Z) "trust" 0 = 0) as -> by done.
  assert (dict_get ({[ "trust" := 0 ]} : gmap string Z) "privacy_exposure" 0 = 0)
    as -> by done.
  assert (dict_get ({[ "trust" := 0 ]} : gmap string Z) "community_harm" 0 = 0)
    as -> by done.
  simpl. by rewrite !Z.add_0_r.
Qed.

Lemma replay_arithmetic labels :
  community_harm (replay labels) ≤ privacy_exposure (replay labels) ∧
  privacy_exposure (replay labels) mod 5 = 0 ∧
  community_harm (replay labels) mod 5 = 0 ∧
  trust (replay labels) mod 10 = 0.
Proof.
  induction labels as [|a labels IH] using rev_ind; [by vm_compute|].
  rewrite replay_snoc. destruct IH as (Hle & Hp & Hc & Ht).
  destruct (decide (a = "exploit")) as [->|Hx];
    [rewrite apply_table_exploit|
     destruct (decide (a = "ethical")) as [->|He];
       [rewrite apply_table_ethical
       |rewrite (apply_table_other _ _ _ He Hx)]];
    simpl; unfold clamp100, clamp;
    repeat split; Z.div_mod_to_equations; lia.
Qed.

(** X12. In any reachable world the scores of every session satisfy
    [community_harm <= privacy_exposure], privacy_exposure and community_harm
    are multiples of 5 and trust is a multiple of 10. *)
Theorem reachable_scores_arithmetic hash_user reqs sid s :
  SESSIONS (exec hash_user reqs empty_world) !! sid = Some s →
  ∃ i, heap (exec hash_user reqs empty_world) !! impact s = Some i ∧
       community_harm i ≤ privacy_exposure i ∧
       privacy_exposure i mod 5 = 0 ∧
       community_harm i mod 5 = 0 ∧
       trust i mod 10 = 0.
Proof.
  intros Hs.
  destruct (reachable_explained hash_user reqs _ _ Hs) as ((i & Hi & Hsc) & _).
  exists i. split; [done|].
  unfold scores in Hsc. injection Hsc as -> -> _ _ ->.
  apply replay_arithmetic.
Qed.

(** ** Tone and risk *)

Lemma exec_logs_at hash_user sid calls w i :
  session_at w sid i →
  session_at (exec hash_user (log_requests sid calls) w) sid
    (foldl (λ i c, apply_deltas (deltas_of (action_type c.2)) c.1.1 i) i calls).
Proof.
  revert w i. induction calls as [|c calls IH]; intros w i Hat; [done|].
  exact (IH _ _ (step_log_at hash_user sid c.1.1 c.1.2 c.2 w i Hat)).
Qed.

Lemma demo_actions_at hash_user labels :
  session_at
    (exec hash_user ((take 2 demo_requests ++ (demo_action <$> labels))%list) empty_world)
    "s-1"
    (foldl (λ i a, apply_deltas (deltas_of a) "t1" i) (baseline_dict "t0") labels).
Proof.
  rewrite exec_app.
  assert (Hreqs : demo_action <$> labels
                  = log_requests "s-1" ((λ a, ("t1", "t2",
                      {| action_type := a; details := []; intent := "Simulation Decision";
                         expected_impact := "Unknown" |})) <$> labels)).
  { unfold log_requests. by rewrite <- list_fmap_compose. }
  rewrite Hreqs.
  pose proof (exec_logs_at hash_user "s-1"
                ((λ a, ("t1", "t2",
                        {| action_type := a; details := []; intent := "Simulation Decision";
                           expected_impact := "Unknown" |})) <$> labels)
                (exec hash_user (take 2 demo_requests) empty_world)
                (baseline_dict "t0")) as Hat.
  rewrite foldl_fmap in Hat. apply Hat.
  exact (create_then_declare_at hash_user "s-1" "t0"
           {| in_user_id := "ada@example.org"; in_persona := student;
              in_scenario_id := "phish" |}
           {| acknowledge_no_harm := true; acknowledge_no_real_data := true;
              acknowledge_audit_logging := false;
              acknowledge_professional_codes := false |}
           empty_world eq_refl eq_refl).
Qed.

(** X13. The headline of the summary follows trust alone and the risk level
    follows the weighted sum, and the two can disagree in reachable worlds:
    after ten exploits, three ethical actions, one exploit and six ethical
    actions the summary carries the responsible headline with risk High, and
    after two exploits it carries the critical headline with risk Low. The
    two labels are lowercase already, which is all that is asked of
    [str.lower] here. *)
Theorem tone_and_risk_are_independent hash_user :
  lower "exploit" = "exploit" →
  lower "ethical" = "ethical" →
  (∃ r, llm_summary "s-1" "t9" (exec hash_user regained_trust_requests empty_world)
          = Ok r (exec hash_user regained_trust_requests empty_world) ∧
        headline r = "✅ Responsible Operation Summary" ∧
        summary_risk_level r = "High") ∧
  (∃ r, llm_summary "s-1" "t9" (exec hash_user early_distrust_requests empty_world)
          = Ok r (exec hash_user early_distrust_requests empty_world) ∧
        headline r = "⚠️ Critical Risk Assessment" ∧
        summary_risk_level r = "Low").
Proof.
  intros Hx He. split.
  - destruct (demo_actions_at hash_user
                (replicate 10 "exploit" ++ replicate 3 "ethical" ++
                 ["exploit"] ++ replicate 6 "ethical")%list) as (s & Hs & _ & Hi).
    fold regained_trust_requests in Hs, Hi.
    eexists. unfold llm_summary, SESSIONS_get, mbind, M_bind. rewrite Hs.
    split; [apply (fake_llm_summary_ok _ _ _ _ Hi)|].
    clear Hs Hi. cbn [headline summary_risk_level replicate app foldl].
    unfold deltas_of. rewrite !Hx, !He. vm_compute. split; reflexivity.
  - destruct (demo_actions_at hash_user (replicate 2 "exploit")) as (s & Hs & _ & Hi).
    fold early_distrust_requests in Hs, Hi.
    eexists. unfold llm_summary, SESSIONS_get, mbind, M_bind. rewrite Hs.
    split; [apply (fake_llm_summary_ok _ _ _ _ Hi)|].
    clear Hs Hi. cbn [headline summary_risk_level replicate app foldl].
    unfold deltas_of. rewrite !Hx. vm_compute. split; reflexivity.
Qed.

(** ** Where sessions come from and what stays *)

Lemma step_session_cases hash_user req w sid :
  match SESSIONS (step hash_user req w) !! sid with
  | Some s' =>
      (∃ now p, req = ReqCreateSession sid now p ∧
                identity s' = (hash_user (in_user_id p), in_persona p, in_scenario_id p)) ∨
      (recreates sid req = false ∧
       ∃ s, SESSIONS w !! sid = Some s ∧ identity s' = identity s ∧
            (ethics_declared s = true → ethics_declared s' = true))
  | None => SESSIONS w !! sid = None
  end.
Proof.
  assert (Hsame : recreates sid req = false →
            match SESSIONS w !! sid with
            | Some s' =>
                (∃ now p, req = ReqCreateSession sid now p ∧
                   identity s' = (hash_user (in_user_id p), in_persona p, in_scenario_id p)) ∨
                (recreates sid req = false ∧
                 ∃ s, SESSIONS w !! sid = Some s ∧ identity s' = identity s ∧
                      (ethics_declared s = true → ethics_declared s' = true))
            | None => SESSIONS w !! sid = None
            end).
  { intros Hr. destruct (SESSIONS w !! sid) as [s|] eqn:Hs; [|done].
    right. split; [done|]. by exists s. }
  assert (Hupd : ∀ h s s', recreates sid req = false →
            SESSIONS w !! target req = Some s → identity s' = identity s →
            (ethics_declared s = true → ethics_declared s' = true) →
            match {| SESSIONS := <[target req := s']> (SESSIONS w); heap := h |}.(SESSIONS)
                    !! sid with
            | Some s' =>
                (∃ now p, req = ReqCreateSession sid now p ∧
                   identity s' = (hash_user (in_user_id p), in_persona p, in_scenario_id p)) ∨
                (recreates sid req = false ∧
                 ∃ s, SESSIONS w !! sid = Some s ∧ identity s' = identity s ∧
                      (ethics_declared s = true → ethics_declared s' = true))
            | None => SESSIONS w !! sid = None
            end).
  { intros h s s' Hr Hs Hid Hg. simpl.
    destruct (decide (target req = sid)) as [Heq|Hne].
    - rewrite Heq in *. rewrite lookup_insert_eq. right. split; [done|]. by exists s.
    - rewrite lookup_insert_ne by done. by apply Hsame. }
  destruct req as [sid' now p|sid' p|sid' t1 t2 p|sid' now|sid' now]; unfold step.
  - rewrite create_session_ok. cbn [world_after]. simpl.
    destruct (decide (sid' = sid)) as [->|Hne].
    + rewrite lookup_insert_eq. left. by exists now, p.
    + rewrite lookup_insert_ne by done. apply Hsame. simpl. by apply bool_decide_eq_false.
  - destruct (SESSIONS w !! sid') as [s|] eqn:Hs.
    + destruct (acknowledge_no_harm p && acknowledge_no_real_data p) eqn:Hp.
      * rewrite (declare_ethics_ok _ _ _ _ Hs Hp). cbn [world_after].
        by apply (Hupd _ s).
      * rewrite (declare_ethics_refused _ _ _ _ Hs Hp). by apply Hsame.
    + rewrite (declare_ethics_not_found _ _ _ Hs). by apply Hsame.
  - destruct (SESSIONS w !! sid') as [s|] eqn:Hs.
    + destruct (ethics_declared s) eqn:He.
      * destruct (heap w !! impact s) as [i|] eqn:Hi.
        -- rewrite (log_action_ok _ t1 t2 p _ _ _ Hs He Hi). cbn [world_after].
           by apply (Hupd _ s).
        -- rewrite (log_action_wrong _ _ _ _ _ _ Hs He Hi). by apply Hsame.
      * rewrite (log_action_gate _ _ _ _ _ _ Hs He). by apply Hsame.
    + rewrite (log_action_not_found _ _ _ _ _ Hs). by apply Hsame.
  - rewrite llm_summary_reads_only. by apply Hsame.
  - destruct (SESSIONS w !! sid') as [s|] eqn:Hs.
    + rewrite (reset_ok _ now _ _ Hs). cbn [world_after]. by apply (Hupd _ s).
    + rewrite (reset_not_found _ _ _ Hs). by apply Hsame.
Qed.

(** X14. No route deletes a session or revokes a declaration: a session
    stays in the store through any sequence of requests and, as long as no
    [create_session] stores under its identifier again, it keeps its
    [user_id], [persona] and [scenario_id], and an open gate stays open,
    through resets and refused declarations alike. *)
Theorem sessions_persist hash_user reqs w sid s :
  SESSIONS w !! sid = Some s →
  ∃ s', SESSIONS (exec hash_user reqs w) !! sid = Some s' ∧
        (Forall (λ req, recreates sid req = false) reqs →
           identity s' = identity s ∧
           (ethics_declared s = true → ethics_declared s' = true)).
Proof.
  revert w s. induction reqs as [|req reqs IH]; intros w s Hs.
  - exists s. by split.
  - simpl. pose proof (step_session_cases hash_user req w sid) as Hc.
    destruct (SESSIONS (step hash_user req w) !! sid) as [s1|] eqn:Hs1;
      [|by rewrite Hs in Hc].
    destruct (IH _ _ Hs1) as (s' & Hs' & Hkeep).
    exists s'. split; [done|].
    intros Hall. apply Forall_cons in Hall as [Hreq Hall].
    destruct (Hkeep Hall) as [Hid Hg].
    destruct Hc as [(now & p & -> & _)|(_ & s0 & Hs0 & Hid0 & Hg0)].
    + simpl in Hreq. by rewrite bool_decide_eq_false in Hreq.
    + rewrite Hs in Hs0. injection Hs0 as <-.
      split; [by rewrite Hid|]. auto.
Qed.

(** X15. Every session in a reachable world was stored by a
    [create_session] request of the sequence under that identifier, and holds
    the digest of that request's user identifier, never the identifier
    itself, together with its persona and scenario. *)
Theorem sessions_come_from_create hash_user reqs sid s :
  SESSIONS (exec hash_user reqs empty_world) !! sid = Some s →
  ∃ now p,
    ReqCreateSession sid now p ∈ reqs ∧
    user_id s = hash_user (in_user_id p) ∧
    persona s = in_persona p ∧
    scenario_id s = in_scenario_id p.
Proof.
  revert s. induction reqs as [|req reqs IH] using rev_ind; intros s Hs; [done|].
  rewrite exec_app in Hs. simpl in Hs.
  pose proof (step_session_cases hash_user req (exec hash_user reqs empty_world) sid) as Hc.
  rewrite Hs in Hc.
  destruct Hc as [(now & p & -> & Hid)|(_ & s0 & Hs0 & Hid & _)].
  - exists now, p. split.
    + apply elem_of_app. right. by apply list_elem_of_singleton.
    + unfold identity in Hid. by injection Hid as -> -> ->.
  - destruct (IH _ Hs0) as (now & p & Hin & Hu & Hp & Hsc).
    exists now, p. split; [apply elem_of_app; by left|].
    unfold identity in Hid. injection Hid as -> -> ->. done.
Qed.

End Lowercase.

(** * Examples

    The statements above at concrete requests, with [lower_ascii] for
    [str.lower] and a fixed digest for [hash_user]. *)

Lemma scores_stay_in_range_witness :
  ∃ s, SESSIONS (demo_world lower_ascii) !! "s-1" = Some s ∧
       ∃ i, heap (demo_world lower_ascii) !! impact s = Some i ∧ scores_in_range i.
Proof.
  eexists. split; [vm_compute; reflexivity|].
  eapply (proj1 (scores_stay_in_range lower_ascii demo_hash demo_requests "s-1" _ _)).
  Unshelve. vm_compute. reflexivity.
Defined.

Lemma untouched_scores_stay_zero_witness :
  ∃ s, SESSIONS (demo_world lower_ascii) !! "s-1" = Some s ∧
       ∃ i, heap (demo_world lower_ascii) !! impact s = Some i ∧
            regulatory_scrutiny i = 0 ∧ business_impact i = 0.
Proof.
  eexists. split; [vm_compute; reflexivity|].
  refine (proj1 (untouched_scores_stay_zero lower_ascii demo_hash demo_requests "s-1" _ _)).
  vm_compute. reflexivity.
Defined.

Lemma reset_restores_baseline_witness :
  (∃ s, SESSIONS (demo_world lower_ascii) !! "s-1" = Some s ∧
     ∃ w' s' i',
       reset "s-1" "t9" (demo_world lower_ascii) = Ok (true, "reset") w' ∧
       SESSIONS w' !! "s-1" = Some s' ∧
       heap w' !! impact s' = Some i' ∧
       i' = baseline_dict "t9" ∧
       trust i' = 100 ∧ privacy_exposure i' = 0 ∧ regulatory_scrutiny i' = 0 ∧
       business_impact i' = 0 ∧ community_harm i' = 0 ∧
       actions s' = [] ∧ reflections s' = [] ∧ status s' = "created" ∧
       user_id s' = user_id s ∧ persona s' = persona s ∧
       scenario_id s' = scenario_id s ∧ ethics_declared s' = ethics_declared s) ∧
  (∃ e, reset "s-2" "t9" (demo_world lower_ascii) = Raise e (demo_world lower_ascii) ∧
        error_kind e = Some NotFound).
Proof.
  split.
  - eexists. split; [vm_compute; reflexivity|].
    apply (proj1 (reset_restores_baseline "s-1" "t9" (demo_world lower_ascii))).
    vm_compute. reflexivity.
  - apply (proj2 (reset_restores_baseline "s-2" "t9" (demo_world lower_ascii))).
    vm_compute. reflexivity.
Defined.

Lemma declare_ethics_gate_witness :
  ∃ s, SESSIONS (created_world lower_ascii) !! "s-1" = Some s ∧ status s = "created" ∧
    (∃ e, declare_ethics "s-1" refusing_flags (created_world lower_ascii) = Raise e (created_world lower_ascii) ∧
          error_kind e = Some PreconditionFailed) ∧
    (∃ w' s',
       declare_ethics "s-1" core_flags (created_world lower_ascii) = Ok ("active", true) w' ∧
       SESSIONS w' !! "s-1" = Some s' ∧
       ethics_declared s' = true ∧ status s' = "active").
Proof.
  eexists. split; [vm_compute; reflexivity|]. split; [reflexivity|].
  split.
  - refine (proj1 (declare_ethics_gate "s-1" refusing_flags (created_world lower_ascii) _ _) _);
      vm_compute; reflexivity.
  - destruct (proj1 (proj2 (declare_ethics_gate "s-1" core_flags (created_world lower_ascii) _
                              ltac:(vm_compute; reflexivity))) eq_refl eq_refl)
      as (w' & s' & H1 & H2 & H3 & H4 & _).
    by exists w', s'.
Defined.

Lemma log_action_requires_ethics_witness :
  (∃ e, log_action lower_ascii "s-1" "t1" "t2" exploit_payload (created_world lower_ascii) = Raise e (created_world lower_ascii) ∧
        error_kind e = Some PreconditionFailed) ∧
  (∃ e, log_action lower_ascii "s-2" "t1" "t2" exploit_payload (created_world lower_ascii) = Raise e (created_world lower_ascii) ∧
        error_kind e = Some NotFound).
Proof.
  split.
  - refine (proj1 (log_action_requires_ethics lower_ascii "s-1" "t1" "t2" exploit_payload (created_world lower_ascii))
              _ _ _); vm_compute; reflexivity.
  - apply (proj2 (log_action_requires_ethics lower_ascii "s-2" "t1" "t2" exploit_payload (created_world lower_ascii))).
    vm_compute. reflexivity.
Defined.

Lemma log_action_applies_deltas_witness :
  (∃ body w',
     log_action lower_ascii "s-1" "t1" "t2" shouted_exploit (active_world lower_ascii)
       = Ok (true, body) w' ∧
     trust body = 80 ∧ privacy_exposure body = 15 ∧ community_harm body = 10 ∧
     updated_at body = "t1") ∧
  (∃ body w',
     log_action lower_ascii "s-1" "t1" "t2"
       {| action_type := "Ethical"; details := []; intent := "Simulation Decision";
          expected_impact := "Unknown" |} (active_world lower_ascii)
       = Ok (true, body) w' ∧
     trust body = 100 ∧ privacy_exposure body = 0 ∧ community_harm body = 0 ∧
     updated_at body = "t1").
Proof.
  eassert (H1 : SESSIONS (active_world lower_ascii) !! "s-1" = Some _)
    by (vm_compute; reflexivity).
  eassert (H3 : heap (active_world lower_ascii) !! 1%positive = Some _)
    by (vm_compute; reflexivity).
  split.
  - destruct (log_action_applies_deltas lower_ascii "s-1" "t1" "t2" shouted_exploit
                _ _ _ H1 eq_refl H3)
      as (body & w' & s' & r & Hrun & _ & _ & _ & _ & _ & Hu & _ & _ & _ & _ & Hx & _).
    destruct (Hx eq_refl) as (Ht & Hp & Hc).
    exists body, w'. exact (conj Hrun (conj Ht (conj Hp (conj Hc Hu)))).
  - destruct (log_action_applies_deltas lower_ascii "s-1" "t1" "t2"
                {| action_type := "Ethical"; details := [];
                   intent := "Simulation Decision"; expected_impact := "Unknown" |}
                _ _ _ H1 eq_refl H3)
      as (body & w' & s' & r & Hrun & _ & _ & _ & _ & _ & Hu & _ & _ & _ & He & _).
    destruct (He eq_refl) as (Ht & Hp & Hc).
    exists body, w'. exact (conj Hrun (conj Ht (conj Hp (conj Hc Hu)))).
Defined.

Lemma five_exploits_after_declaration_witness :
  (λ k, trust <$> session_impact
                    (exec lower_ascii demo_hash
                       (take k (take 2 demo_requests ++
                                replicate 5 (ReqLogAction "s-1" "t1" "t2" exploit_payload)))
                       empty_world) "s-1")
    <$> [2; 3; 4; 5; 6; 7]%nat
  = Some <$> [100; 80; 60; 40; 20; 0] ∧
  risk_level <$> session_impact
                   (exec lower_ascii demo_hash
                      (take 2 demo_requests ++
                       replicate 5 (ReqLogAction "s-1" "t1" "t2" exploit_payload))
                      empty_world) "s-1"
  = Some "High".
Proof.
  apply (five_exploits_after_declaration lower_ascii demo_hash empty_world "s-1" "t0"
           {| in_user_id := "ada@example.org"; in_persona := student;
              in_scenario_id := "phish" |}
           core_flags (λ _, "t1") (λ _, "t2") (λ _, exploit_payload));
    reflexivity.
Defined.

(** C7, as stated, fails: a fresh session has not passed the ethics gate, so
    each of the five calls raises 403 and trust stays at 100, risk Low. *)
Lemma five_exploits_on_fresh_session :
  let log := ReqLogAction "s-1" "t1" "t2" exploit_payload in
  let w := exec lower_ascii demo_hash (take 1 demo_requests ++ replicate 5 log) empty_world in
  log_action lower_ascii "s-1" "t1" "t2" exploit_payload (created_world lower_ascii) =
    Raise {| status_code := 403; detail := "Ethics declaration required" |} (created_world lower_ascii) ∧
  w = (created_world lower_ascii) ∧
  trust <$> session_impact w "s-1" = Some 100 ∧
  risk_level <$> session_impact w "s-1" = Some "Low" ∧
  ¬ (trust <$> session_impact w "s-1" = Some 0 ∧
     risk_level <$> session_impact w "s-1" = Some "High").
Proof.
  assert (Hraise : log_action lower_ascii "s-1" "t1" "t2" exploit_payload (created_world lower_ascii) =
                   Raise {| status_code := 403; detail := "Ethics declaration required" |}
                         (created_world lower_ascii)).
  { eapply log_action_gate; vm_compute; reflexivity. }
  assert (Hsame : exec lower_ascii demo_hash
                    (take 1 demo_requests ++
                     replicate 5 (ReqLogAction "s-1" "t1" "t2" exploit_payload))
                    empty_world = (created_world lower_ascii)).
  { rewrite exec_app. fold (created_world lower_ascii). unfold exec. cbn [replicate foldl].
    unfold step. by rewrite !Hraise. }
  cbv zeta. rewrite Hsame.
  split; [done|]. split; [done|].
  assert (Ht : trust <$> session_impact (created_world lower_ascii) "s-1" = Some 100)
    by (vm_compute; reflexivity).
  split; [done|]. split; [vm_compute; reflexivity|].
  intros [H0 _]. rewrite Ht in H0. discriminate.
Qed.

Lemma llm_summary_deterministic_witness :
  ∃ r1 r2,
    llm_summary "s-1" "t5" (demo_world lower_ascii) = Ok r1 (demo_world lower_ascii) ∧
    llm_summary "s-1" "t6" (demo_world lower_ascii) = Ok r2 (demo_world lower_ascii) ∧
    headline r1 = headline r2 ∧
    observations r1 = observations r2 ∧
    observations r1 = ["exploit"; "ethical"].
Proof.
  eassert (H1 : SESSIONS (demo_world lower_ascii) !! "s-1" = Some _) by (vm_compute; reflexivity).
  eassert (H2 : heap (demo_world lower_ascii) !! 1%positive = Some _) by (vm_compute; reflexivity).
  destruct (llm_summary_deterministic "s-1" "t5" "t6" _ _ _ H1 H2)
    as (r1 & r2 & Ha & Hb & Hh & _ & Ho & _).
  exists r1, r2. do 4 (split; [done|]).
  assert (Hr : Ok r1 (demo_world lower_ascii) =
               Ok (A:=Summary)
                  {| headline := responsible_headline; summary_risk_level := "Low";
                     observations := ["exploit"; "ethical"];
                     human_impact := responsible_text;
                     recommended_next_steps := responsible_steps;
                     generated_at := "t5" |} (demo_world lower_ascii)).
  { rewrite <- Ha. vm_compute. reflexivity. }
  exact (f_equal (λ res, match res with Ok a _ => observations a | _ => [] end) Hr).
Defined.

Lemma action_records_frozen_witness :
  ∃ s body w' s' r,
    SESSIONS (active_world lower_ascii) !! "s-1" = Some s ∧
    log_action lower_ascii "s-1" "t1" "t2" shouted_exploit (active_world lower_ascii) = Ok (true, body) w' ∧
    SESSIONS w' !! "s-1" = Some s' ∧
    actions s' = (actions s ++ [r])%list ∧
    impact_after r ≠ impact s' ∧
    heap w' !! impact_after r = Some body ∧
    heap (exec lower_ascii demo_hash
            [ReqLogAction "s-1" "t3" "t4" exploit_payload; ReqReset "s-1" "t5"] w')
      !! impact_after r = Some body.
Proof.
  eassert (H1 : SESSIONS (exec lower_ascii demo_hash (take 2 demo_requests) empty_world) !! "s-1"
                = Some _) by (vm_compute; reflexivity).
  destruct (action_records_frozen lower_ascii demo_hash (take 2 demo_requests) "s-1" "t1" "t2"
              shouted_exploit _ H1 eq_refl)
    as (body & w' & s' & r & Hrun & Hs' & Ha & _ & _ & _ & _ & Hne & _ & Hc & Hf & _).
  eexists _, body, w', s', r. split; [exact H1|].
  split; [exact Hrun|]. split; [done|]. split; [exact Ha|].
  split; [done|]. split; [done|]. apply Hf.
Defined.

Lemma requests_are_isolated_witness :
  session_impact
    (step lower_ascii demo_hash (ReqLogAction "s-2" "t7" "t8" exploit_payload) (two_session_world lower_ascii)) "s-1"
  = session_impact (two_session_world lower_ascii) "s-1" ∧
  session_impact
    (step lower_ascii demo_hash (ReqLogAction "s-2" "t7" "t8" exploit_payload) (two_session_world lower_ascii)) "s-2"
  ≠ session_impact (two_session_world lower_ascii) "s-2".
Proof.
  split.
  - refine (proj1 (proj2 (requests_are_isolated lower_ascii demo_hash two_session_requests
                            (ReqLogAction "s-2" "t7" "t8" exploit_payload) "s-1" _))).
    vm_compute. discriminate.
  - vm_compute. discriminate.
Defined.

Lemma unknown_session_raises_404_witness :
  declare_ethics "s-9" no_flags (demo_world lower_ascii) = Raise not_found (demo_world lower_ascii) ∧
  llm_summary "s-9" "t9" (demo_world lower_ascii) = Raise not_found (demo_world lower_ascii).
Proof.
  destruct (unknown_session_raises_404 lower_ascii "s-9" (demo_world lower_ascii)) as (H1 & _ & H3 & _).
  - vm_compute. reflexivity.
  - split; [apply H1|apply H3].
Defined.

Lemma reset_keeps_gate_open_witness :
  ∃ w1 body w2 s2 r,
    reset "s-1" "t5" (demo_world lower_ascii) = Ok (true, "reset") w1 ∧
    log_action lower_ascii "s-1" "t6" "t7" exploit_payload w1 = Ok (true, body) w2 ∧
    SESSIONS w2 !! "s-1" = Some s2 ∧
    status s2 = "created" ∧ actions s2 = [r] ∧ trust body = 80.
Proof.
  eassert (H1 : SESSIONS (demo_world lower_ascii) !! "s-1" = Some _) by (vm_compute; reflexivity).
  destruct (reset_keeps_gate_open lower_ascii "s-1" "t5" "t6" "t7" exploit_payload _ _ H1)
    as (w1 & Hr & Hopen & _).
  destruct (Hopen eq_refl)
    as (body & w2 & s2 & r & Hl & Hs2 & Hst & _ & Ha & _ & _ & _ & Hx & _).
  destruct (Hx eq_refl) as (Ht & _).
  exists w1, body, w2, s2, r.
  exact (conj Hr (conj Hl (conj Hs2 (conj Hst (conj Ha Ht))))).
Defined.

Lemma actions_move_risk_one_way_witness :
  ∃ i body w',
    heap (active_world lower_ascii) !! 1%positive = Some i ∧
    log_action lower_ascii "s-1" "t1" "t2" shouted_exploit (active_world lower_ascii) = Ok (true, body) w' ∧
    risk_sum i ≤ risk_sum body ∧ trust body ≤ trust i.
Proof.
  eassert (H1 : SESSIONS (active_world lower_ascii) !! "s-1" = Some _) by (vm_compute; reflexivity).
  eassert (H3 : heap (active_world lower_ascii) !! 1%positive = Some _) by (vm_compute; reflexivity).
  destruct (actions_move_risk_one_way lower_ascii "s-1" "t1" "t2" shouted_exploit _ _ _ H1 eq_refl H3)
    as (body & w' & Hrun & Hx & _).
  { unfold scores_in_range, in_range. simpl. lia. }
  destruct (Hx eq_refl) as (Hsum & Ht & _).
  eexists _, body, w'. exact (conj H3 (conj Hrun (conj Hsum Ht))).
Defined.

Lemma logging_appends_in_order_witness :
  ∃ s s',
    SESSIONS (exec lower_ascii demo_hash (take 2 demo_requests) empty_world) !! "s-1" = Some s ∧
    SESSIONS (exec lower_ascii demo_hash
                ((take 2 demo_requests ++
                  log_requests "s-1" [("t1", "t2", shouted_exploit);
                                      ("t3", "t4", exploit_payload)])%list)
                empty_world) !! "s-1" = Some s' ∧
    logged_type <$> actions s' = ((logged_type <$> actions s) ++ ["exploit"; "exploit"])%list.
Proof.
  eassert (H1 : SESSIONS (exec lower_ascii demo_hash (take 2 demo_requests) empty_world) !! "s-1"
                = Some _) by (vm_compute; reflexivity).
  destruct (logging_appends_in_order lower_ascii demo_hash (take 2 demo_requests) "s-1"
              [("t1", "t2", shouted_exploit); ("t3", "t4", exploit_payload)] _ H1 eq_refl)
    as (s' & Hs' & Hlab & _).
  eexists _, s'. exact (conj H1 (conj Hs' Hlab)).
Defined.

Lemma history_explains_state_witness :
  ∃ s i,
    SESSIONS (demo_world lower_ascii) !! "s-1" = Some s ∧
    heap (demo_world lower_ascii) !! impact s = Some i ∧
    scores i = scores (replay ["exploit"; "ethical"]).
Proof.
  eassert (H1 : SESSIONS (demo_world lower_ascii) !! "s-1" = Some _) by (vm_compute; reflexivity).
  destruct (history_explains_state lower_ascii demo_hash demo_requests "s-1" _ H1)
    as ((i & Hi & Hsc & _) & _).
  eexists _, i. exact (conj H1 (conj Hi Hsc)).
Defined.

Lemma reachable_scores_arithmetic_witness :
  ∃ s i,
    SESSIONS (demo_world lower_ascii) !! "s-1" = Some s ∧
    heap (demo_world lower_ascii) !! impact s = Some i ∧
    community_harm i ≤ privacy_exposure i.
Proof.
  eassert (H1 : SESSIONS (demo_world lower_ascii) !! "s-1" = Some _) by (vm_compute; reflexivity).
  destruct (reachable_scores_arithmetic lower_ascii demo_hash demo_requests "s-1" _ H1)
    as (i & Hi & Hle & _).
  eexists _, i. exact (conj H1 (conj Hi Hle)).
Defined.

Lemma sessions_persist_witness :
  ∃ s s',
    SESSIONS (active_world lower_ascii) !! "s-1" = Some s ∧
    SESSIONS (exec lower_ascii demo_hash
                [ReqReset "s-1" "t5"; ReqDeclareEthics "s-1" no_flags;
                 ReqCreateSession "s-2" "t6"
                   {| in_user_id := "bob@example.org"; in_persona := instructor;
                      in_scenario_id := "phish" |}]
                (active_world lower_ascii)) !! "s-1" = Some s' ∧
    identity s' = identity s ∧ ethics_declared s' = true.
Proof.
  eassert (H1 : SESSIONS (active_world lower_ascii) !! "s-1" = Some _) by (vm_compute; reflexivity).
  destruct (sessions_persist lower_ascii demo_hash
              [ReqReset "s-1" "t5"; ReqDeclareEthics "s-1" no_flags;
               ReqCreateSession "s-2" "t6"
                 {| in_user_id := "bob@example.org"; in_persona := instructor;
                    in_scenario_id := "phish" |}]
              (active_world lower_ascii) "s-1" _ H1) as (s' & Hs' & Hkeep).
  destruct Hkeep as [Hid Hg].
  { repeat constructor. }
  eexists _, s'. exact (conj H1 (conj Hs' (conj Hid (Hg eq_refl)))).
Defined.

Lemma sessions_come_from_create_witness :
  ∃ s now p,
    SESSIONS (demo_world lower_ascii) !! "s-1" = Some s ∧
    ReqCreateSession "s-1" now p ∈ demo_requests ∧
    user_id s = demo_hash (in_user_id p).
Proof.
  eassert (H1 : SESSIONS (demo_world lower_ascii) !! "s-1" = Some _) by (vm_compute; reflexivity).
  destruct (sessions_come_from_create lower_ascii demo_hash demo_requests "s-1" _ H1)
    as (now & p & Hin & Hu & _).
  eexists _, now, p. exact (conj H1 (conj Hin Hu)).
Defined.

Lemma log_action_ignores_case_witness :
  log_action lower_ascii "s-1" "t1" "t2" shouted_exploit (active_world lower_ascii)
  = log_action lower_ascii "s-1" "t1" "t2"
      {| action_type := "exploit"; details := []; intent := "Curiosity";
         expected_impact := "None" |} (active_world lower_ascii).
Proof.
  apply (log_action_ignores_case lower_ascii "s-1" "t1" "t2" shouted_exploit
           {| action_type := "exploit"; details := []; intent := "Curiosity";
              expected_impact := "None" |} (active_world lower_ascii));
    reflexivity.
Defined.

Lemma tone_and_risk_are_independent_witness :
  (∃ r, llm_summary "s-1" "t9"
          (exec lower_ascii demo_hash regained_trust_requests empty_world)
          = Ok r (exec lower_ascii demo_hash regained_trust_requests empty_world) ∧
        headline r = "✅ Responsible Operation Summary" ∧
        summary_risk_level r = "High") ∧
  (∃ r, llm_summary "s-1" "t9"
          (exec lower_ascii demo_hash early_distrust_requests empty_world)
          = Ok r (exec lower_ascii demo_hash early_distrust_requests empty_world) ∧
        headline r = "⚠️ Critical Risk Assessment" ∧
        summary_risk_level r = "Low").
Proof.
  apply (tone_and_risk_are_independent lower_ascii demo_hash); reflexivity.
Defined.
